(** * Logto profile routes: verification-gated profile mutation

    A shallow embedding of the two profile routers of the repository,

    - [packages/core/src/routes/profile/index.ts]   (module [ProfileApi]),
    - [packages/core/src/routes/session/profile.ts] (module [SessionProfile]),

    over an explicit world: the user store, the verification record store,
    the data-hook context of the request, the console and a trace of the
    accesses made to the user store.  Handlers are computations in a small
    state-and-exception monad; an exception keeps the world as it was when
    it was thrown, as a rejected promise does. *)

From Stdlib Require Import ZArith String List.
From stdpp Require Import base option strings gmap.

Local Open Scope Z_scope.

(** ** Errors *)

(** [RequestError]: an error code and the HTTP status it is sent with. *)
Record RequestError := mkRequestError { code : string; status : Z }.

#[global] Instance RequestError_eq_dec : EqDecision RequestError.
Proof. solve_decision. Defined.

(** [new RequestError(code)] as [assertThat(cond, 'some.code')] builds it:
    no status is given at the call site; both guards of [index.ts] that can
    throw such an error declare 400 among their statuses. *)
Definition requestErrorOfCode (c : string) : RequestError :=
  {| code := c; status := 400 |}.

Definition auth_unauthorized : RequestError :=
  {| code := "auth.unauthorized"; status := 401 |}.
Definition user_same_password : RequestError :=
  {| code := "user.same_password"; status := 422 |}.
Definition user_email_not_exists : RequestError :=
  {| code := "user.email_not_exists"; status := 422 |}.
Definition user_phone_not_exists : RequestError :=
  {| code := "user.phone_not_exists"; status := 422 |}.
Definition user_identity_not_exists : RequestError :=
  {| code := "user.identity_not_exists"; status := 404 |}.
Definition verification_record_not_found : RequestError :=
  requestErrorOfCode "verification_record.not_found".

(** ** Data model *)

(** What a social connector returns about the external account;
    [socialUserInfo.id] is the only field the routes read. *)
Record SocialUserInfo := mkSocialUserInfo {
  social_id : string;
  social_raw : string
}.

(** One entry of the [identities] map: [{ userId, details }]. *)
Record Identity := mkIdentity {
  identity_userId : string;
  details : SocialUserInfo
}.

Record User := mkUser {
  user_id : string;
  username : option string;
  primaryEmail : option string;
  primaryPhone : option string;
  passwordEncrypted : option string;
  passwordEncryptionMethod : option string;
  name : option string;
  avatar : option string;
  customData : gmap string string;
  profile : gmap string string;
  identities : gmap string Identity
}.

#[global] Instance SocialUserInfo_eq_dec : EqDecision SocialUserInfo.
Proof. solve_decision. Defined.
#[global] Instance Identity_eq_dec : EqDecision Identity.
Proof. solve_decision. Defined.
#[global] Instance User_eq_dec : EqDecision User.
Proof. solve_decision. Defined.

(** [Partial<User>] as handed to [updateUserById].  A nullable column is
    [option (option _)]: [None] is a key that is absent or [undefined]
    (the column is left alone), [Some None] is [null], [Some (Some v)] a
    value.  The JSON columns are never set to [null] by the routes. *)
Record UserSet := mkUserSet {
  set_username : option (option string);
  set_primaryEmail : option (option string);
  set_primaryPhone : option (option string);
  set_passwordEncrypted : option (option string);
  set_passwordEncryptionMethod : option (option string);
  set_name : option (option string);
  set_avatar : option (option string);
  set_customData : option (gmap string string);
  set_profile : option (gmap string string);
  set_identities : option (gmap string Identity)
}.

(** The third argument of [updateUserById]; [session/profile.ts] passes
    ['replace'] at one call site, every other call leaves it out. *)
Inductive JsonbMode := Merge | Replace.

(** Modelled from the spec: the Verification Record Store of section 4.1
    ([libraries/verification.js] is not part of the sources).  A record
    has an id, the owning subject, the proven target, a consumed flag and
    an expiry timestamp. *)
Record VerificationRecord := mkVerificationRecord {
  record_id : string;
  record_userId : string;
  record_target : option string;
  consumed : bool;
  expiresAt : Z
}.

#[global] Instance VerificationRecord_eq_dec : EqDecision VerificationRecord.
Proof. solve_decision. Defined.

(** One access to the user store. *)
Inductive StoreOp :=
  | OpFind (userId : string)
  | OpLookupIdentifier (field value : string)
  | OpUpdate (userId : string)
  | OpDeleteIdentity (userId target : string).

Definition isWrite (op : StoreOp) : bool :=
  match op with
  | OpUpdate _ | OpDeleteIdentity _ _ => true
  | OpFind _ | OpLookupIdentifier _ _ => false
  end.

(** The world a handler runs in. *)
Record World := mkWorld {
  users : gmap string User;
  verificationRecords : gmap string VerificationRecord;
  now : Z;
  dataHookContext : list (string * User);
  console : list (list string);
  storeTrace : list StoreOp
}.

(** ** The handler monad *)

Definition M (A : Type) : Type := World -> (RequestError + A) * World.

Definition ret {A} (a : A) : M A := fun w => (inr a, w).

Definition bind {A B} (c : M A) (k : A -> M B) : M B :=
  fun w =>
    match c w with
    | (inl e, w') => (inl e, w')
    | (inr a, w') => k a w'
    end.

Definition throw {A} (e : RequestError) : M A := fun w => (inl e, w).

Declare Scope handler_scope.
Delimit Scope handler_scope with handler.
Notation "x <- c ;; k" := (bind c (fun x => k))
  (at level 100, c at next level, right associativity) : handler_scope.
Notation "c ;;; k" := (bind c (fun _ => k))
  (at level 100, right associativity) : handler_scope.
Local Open Scope handler_scope.

(** [assertThat(value, error)]: throws unless the value is truthy. *)
Definition assertThat (cond : bool) (e : RequestError) : M unit :=
  if cond then ret tt else throw e.

(** JavaScript truthiness of a [string | null | undefined]. *)
Definition truthy (o : option string) : bool :=
  match o with
  | Some s => negb (String.eqb s "")
  | None => false
  end.

(** [assertThat(userId, error)] followed by uses of [userId] as a string. *)
Definition assertTruthy (o : option string) (e : RequestError) : M string :=
  match o with
  | Some s => if String.eqb s "" then throw e else ret s
  | None => throw e
  end.

Definition liftResult {A} (r : RequestError + A) : M A :=
  match r with
  | inl e => throw e
  | inr a => ret a
  end.

Definition logStore (op : StoreOp) : M unit :=
  fun w => (inr tt,
            {| users := users w; verificationRecords := verificationRecords w;
               now := now w; dataHookContext := dataHookContext w;
               console := console w; storeTrace := storeTrace w ++ [op] |}).

Definition putUsers (us : gmap string User) : M unit :=
  fun w => (inr tt,
            {| users := us; verificationRecords := verificationRecords w;
               now := now w; dataHookContext := dataHookContext w;
               console := console w; storeTrace := storeTrace w |}).

Definition getWorld : M World := fun w => (inr w, w).

(** [ctx.appendDataHookContext(event, { user })]. *)
Definition appendDataHookContext (event : string) (u : User) : M unit :=
  fun w => (inr tt,
            {| users := users w; verificationRecords := verificationRecords w;
               now := now w;
               dataHookContext := dataHookContext w ++ [(event, u)];
               console := console w; storeTrace := storeTrace w |}).

(** [console.log(...args)]. *)
Definition console_log (args : list string) : M unit :=
  fun w => (inr tt,
            {| users := users w; verificationRecords := verificationRecords w;
               now := now w; dataHookContext := dataHookContext w;
               console := console w ++ [args]; storeTrace := storeTrace w |}).

(** ** The user store *)

(** Modelled from the spec: the failure of the user store, "a key-value
    store of user records addressable by opaque id" ([queries/user] is not
    part of the sources), when the id is not stored (the taxonomy's
    [NotFound]). *)
Definition entity_not_found : RequestError :=
  {| code := "entity.not_found"; status := 404 |}.

(** A nullable column under a [Partial<User>]: left alone, set to [null],
    or set to a value. *)
Definition setColumn {A} (s : option (option A)) (old : option A) : option A :=
  match s with
  | None => old
  | Some v => v
  end.

(** A JSON column under the two modes the third argument names: in
    [Merge] mode the keys of the new object are laid over the stored
    object, in [Replace] mode the new object is stored. *)
Definition setJsonb {V} (mode : JsonbMode) (s : option (gmap string V))
    (old : gmap string V) : gmap string V :=
  match s with
  | None => old
  | Some new =>
      match mode with
      | Merge => new ∪ old
      | Replace => new
      end
  end.

(** Modelled from the spec: "apply the update transactionally [...]
    either all target fields apply or none do". *)
Definition applyUserSet (mode : JsonbMode) (s : UserSet) (u : User) : User :=
  {| user_id := user_id u;
     username := setColumn (set_username s) (username u);
     primaryEmail := setColumn (set_primaryEmail s) (primaryEmail u);
     primaryPhone := setColumn (set_primaryPhone s) (primaryPhone u);
     passwordEncrypted := setColumn (set_passwordEncrypted s) (passwordEncrypted u);
     passwordEncryptionMethod :=
       setColumn (set_passwordEncryptionMethod s) (passwordEncryptionMethod u);
     name := setColumn (set_name s) (name u);
     avatar := setColumn (set_avatar s) (avatar u);
     customData := setJsonb mode (set_customData s) (customData u);
     profile := setJsonb mode (set_profile s) (profile u);
     identities := setJsonb mode (set_identities s) (identities u) |}.

(** Modelled from the spec: a lookup in the user store by id
    ([findUserById] of [queries/user] is not part of the sources); it
    rejects when the id is not stored. *)
Definition findUserById (userId : string) : M User :=
  logStore (OpFind userId) ;;;
  w <- getWorld ;;
  match users w !! userId with
  | Some u => ret u
  | None => throw entity_not_found
  end.

(** Modelled from the spec: [updateUserById(id, set, jsonbMode)] of
    [queries/user], not part of the sources: applies the set to the stored
    record and resolves to the updated record; it rejects when the id is
    not stored.  The store is not assumed to enforce uniqueness of
    identifiers by itself. *)
Definition updateUserById (userId : string) (s : UserSet) (mode : JsonbMode)
    : M User :=
  logStore (OpUpdate userId) ;;;
  w <- getWorld ;;
  match users w !! userId with
  | Some u =>
      let u' := applyUserSet mode s u in
      putUsers (<[userId := u']> (users w)) ;;;
      ret u'
  | None => throw entity_not_found
  end.

Definition removeIdentity (target : string) (u : User) : User :=
  {| user_id := user_id u; username := username u;
     primaryEmail := primaryEmail u; primaryPhone := primaryPhone u;
     passwordEncrypted := passwordEncrypted u;
     passwordEncryptionMethod := passwordEncryptionMethod u;
     name := name u; avatar := avatar u; customData := customData u;
     profile := profile u; identities := delete target (identities u) |}.

(** Modelled from the spec: [deleteUserIdentity(userId, target)] of
    [queries/user], not part of the sources: removes the entry under
    [target] from the identities of the stored record. *)
Definition deleteUserIdentity (userId target : string) : M User :=
  logStore (OpDeleteIdentity userId target) ;;;
  w <- getWorld ;;
  match users w !! userId with
  | Some u =>
      let u' := removeIdentity target u in
      putUsers (<[userId := u']> (users w)) ;;;
      ret u'
  | None => throw entity_not_found
  end.

(** ** Identifier collision checker *)

(** Modelled from the spec: the failure [IdentifierExists] of the
    collision checker; 422 is the status the guard of [PATCH /profile]
    declares for it. *)
Definition IdentifierExists : RequestError :=
  {| code := "IdentifierExists"; status := 422 |}.

(** The candidate fields, each absent or a value. *)
Record Identifiers := mkIdentifiers {
  cand_username : option string;
  cand_primaryEmail : option string;
  cand_primaryPhone : option string
}.

(** Some stored user other than [excludeUserId] holds [v] in column [sel].
    With no excluded id every holder counts. *)
Definition heldByOther (sel : User -> option string) (v : string)
    (excludeUserId : option string) (us : gmap string User) : Prop :=
  map_Exists (fun k u => sel u = Some v /\ Some k <> excludeUserId) us.

#[global] Instance heldByOther_dec sel v ex us : Decision (heldByOther sel v ex us).
Proof. unfold heldByOther. apply _. Defined.

(** One candidate field: nothing to do when it is absent, else one lookup
    and the rejection when the lookup finds a holder that counts. *)
Definition checkField (field : string) (sel : User -> option string)
    (candidate : option string) (excludeUserId : option string) : M unit :=
  match candidate with
  | None => ret tt
  | Some v =>
      logStore (OpLookupIdentifier field v) ;;;
      w <- getWorld ;;
      assertThat (negb (bool_decide (heldByOther sel v excludeUserId (users w))))
                 IdentifierExists
  end.

(** Modelled from the spec: the Identifier Collision Checker of section 4.2
    ([libraries.users.checkIdentifierCollision] and
    [checkSignUpIdentifierCollision] of [./utils] are not part of the
    sources): "Looks up each non-null candidate field
    (username/email/phone) against the store; any match belonging to a
    subject other than excludeSubjectId fails." *)
Definition checkIdentifierCollision (c : Identifiers)
    (excludeUserId : option string) : M unit :=
  checkField "username" username (cand_username c) excludeUserId ;;;
  checkField "primaryEmail" primaryEmail (cand_primaryEmail c) excludeUserId ;;;
  checkField "primaryPhone" primaryPhone (cand_primaryPhone c) excludeUserId.

(** The name the session routes import the checker under. *)
Definition checkSignUpIdentifierCollision := checkIdentifierCollision.

(** ** Verification records *)

(** Modelled from the spec: [isValid(record)] of section 4.1, "true iff
    unconsumed and unexpired and, when scope-bound, the record's proven
    target matches the requested target identifier". *)
Definition isValid (nowTs : Z) (requested : option string)
    (r : VerificationRecord) : bool :=
  negb (consumed r) && (nowTs <? expiresAt r)
  && match requested with
     | None => true
     | Some t => bool_decide (record_target r = Some t)
     end.

(** The [isVerified] property the password route reads: the route names
    no target. *)
Definition isVerified (nowTs : Z) (r : VerificationRecord) : bool :=
  isValid nowTs None r.

(** Modelled from the spec: [resolve(recordId, subjectId) -> Record |
    fails(NotFound)] of section 4.1, which
    [buildUserVerificationRecordById(userId, recordId, queries, libraries)]
    of [libraries/verification.js] stands for. *)
Definition buildUserVerificationRecordById (userId recordId : string)
    : M VerificationRecord :=
  w <- getWorld ;;
  match verificationRecords w !! recordId with
  | Some r =>
      if String.eqb (record_userId r) userId then ret r
      else throw verification_record_not_found
  | None => throw verification_record_not_found
  end.

(** ** Responses and the scoped projector *)

Record Response := mkResponse {
  resp_status : Z;
  resp_body : option User
}.

(** [UserScope.Profile] and [UserScope.Address] of [@logto/core-kit]. *)
Definition UserScope_Profile : string := "profile".
Definition UserScope_Address : string := "address".

Definition withProfile (p : gmap string string) (u : User) : User :=
  {| user_id := user_id u; username := username u;
     primaryEmail := primaryEmail u; primaryPhone := primaryPhone u;
     passwordEncrypted := passwordEncrypted u;
     passwordEncryptionMethod := passwordEncryptionMethod u;
     name := name u; avatar := avatar u; customData := customData u;
     profile := p; identities := identities u |}.

(** Modelled from the spec: the Scoped Profile Projector
    ([./utils/get-scoped-profile.js] is not part of the sources), which
    "omits address unless an address scope is held". *)
Definition project (scopes : gset string) (u : User) : User :=
  if decide (UserScope_Address ∈ scopes) then u
  else withProfile (delete "address" (profile u)) u.

(** [getScopedProfile(queries, libraries, scopes, userId)]: reads the
    user and projects it. *)
Definition getScopedProfile (scopes : gset string) (userId : string) : M User :=
  u <- findUserById userId ;;
  ret (project scopes u).

(** ** Collaborators *)

(** The request's session as [provider.Session.get(ctx)] resolves it. *)
Record Session := mkSession {
  accountId : option string;
  loginTs : option Z
}.

(** Functions and constants the routes import from modules that are not
    part of the sources; the routes are embedded over any choice of them.
    - [checkSessionHealth(ctx, provider, tolerance)] ([lib/session])
      rejects or resolves to the possibly absent account id;
    - [verificationTimeout] ([./consts]);
    - [argon2Verify({ password, hash })] ([hash-wasm]);
    - [encryptUserPassword(password)] ([lib/user]) resolves to
      [{ passwordEncrypted, passwordEncryptionMethod }];
    - [getLogtoConnectorById(connectorId)] rejects or resolves to a
      connector, of which the routes read [metadata.target];
    - [getUserInfoByAuthCode(connectorId, data)] ([lib/social]);
    - [pick(user, ...userInfoSelectFields)], the field list being a
      constant of [@logto/schemas];
    - the default of the third parameter of [updateUserById]
      ([queries/user]), which every call but the one that passes
      ['replace'] relies on. *)
Record Collaborators := mkCollaborators {
  checkSessionHealth : Session -> Z -> RequestError + option string;
  verificationTimeout : Z;
  argon2Verify : string -> string -> bool;
  encryptUserPassword : string -> string * string;
  getLogtoConnectorById : string -> RequestError + string;
  getUserInfoByAuthCode : string -> string -> RequestError + SocialUserInfo;
  pickUserInfo : User -> User;
  jsonbModeDefault : JsonbMode
}.

Inductive Method := GET | PATCH | POST | DELETE.

#[global] Instance Method_eq_dec : EqDecision Method.
Proof. solve_decision. Defined.

(** ** [routes/profile/index.ts] *)

Module ProfileApi.

(** [ctx.auth]: the subject id is a [string], never absent. *)
Record AuthContext := mkAuthContext {
  auth_id : string;
  scopes : gset string
}.

(** The guarded body of [PATCH /profile]. *)
Record PatchProfileBody := mkPatchProfileBody {
  body_name : option (option string);
  body_avatar : option (option string);
  body_username : option string;
  body_profile : option (gmap string string)
}.

(** The guarded body of [POST /profile/password]. *)
Record PostPasswordBody := mkPostPasswordBody {
  password : string;
  verificationRecordId : string
}.

(** [{ ...restProfile, ...conditional(scopes.has(UserScope.Address) &&
    { address }) }] with [{ address, ...restProfile } = profile]. *)
Definition profileToStore (scs : gset string) (p : gmap string string)
    : gmap string string :=
  let address := p !! "address" in
  let restProfile := delete "address" p in
  if bool_decide (UserScope_Address ∈ scs) then
    match address with
    | Some a => <["address" := a]> restProfile
    | None => restProfile
    end
  else restProfile.

(** The second argument of [updateUserById] in [PATCH /profile]. *)
Definition patchProfileSet (scs : gset string) (body : PatchProfileBody)
    : UserSet :=
  {| set_username := Some <$> body_username body;
     set_primaryEmail := None; set_primaryPhone := None;
     set_passwordEncrypted := None; set_passwordEncryptionMethod := None;
     set_name := body_name body;
     set_avatar := body_avatar body;
     set_customData := None;
     set_profile := profileToStore scs <$> body_profile body;
     set_identities := None |}.

Section Handlers.
Variable libs : Collaborators.

(** [router.get('/profile', ...)] *)
Definition getProfile (auth : AuthContext) : M Response :=
  let userId := auth_id auth in
  b <- getScopedProfile (scopes auth) userId ;;
  ret {| resp_status := 200; resp_body := Some b |}.

(** [router.patch('/profile', ...)] *)
Definition patchProfile (auth : AuthContext) (body : PatchProfileBody)
    : M Response :=
  let userId := auth_id auth in
  assertThat (bool_decide (UserScope_Profile ∈ scopes auth))
             (requestErrorOfCode "auth.unauthorized") ;;;
  match body_username body with
  | Some username =>
      checkIdentifierCollision
        {| cand_username := Some username; cand_primaryEmail := None;
           cand_primaryPhone := None |} (Some userId)
  | None => ret tt
  end ;;;
  updatedUser <- updateUserById userId (patchProfileSet (scopes auth) body) (jsonbModeDefault libs) ;;
  appendDataHookContext "User.Data.Updated" updatedUser ;;;
  b <- getScopedProfile (scopes auth) userId ;;
  ret {| resp_status := 200; resp_body := Some b |}.

(** [router.post('/profile/password', ...)] *)
Definition postProfilePassword (auth : AuthContext) (body : PostPasswordBody)
    : M Response :=
  let userId := auth_id auth in
  verificationRecord <-
    buildUserVerificationRecordById userId (verificationRecordId body) ;;
  w <- getWorld ;;
  assertThat (isVerified (now w) verificationRecord)
             verification_record_not_found ;;;
  let '(passwordEncrypted', passwordEncryptionMethod') :=
    encryptUserPassword libs (password body) in
  updatedUser <-
    updateUserById userId
      {| set_username := None; set_primaryEmail := None;
         set_primaryPhone := None;
         set_passwordEncrypted := Some (Some passwordEncrypted');
         set_passwordEncryptionMethod := Some (Some passwordEncryptionMethod');
         set_name := None; set_avatar := None; set_customData := None;
         set_profile := None; set_identities := None |} (jsonbModeDefault libs) ;;
  appendDataHookContext "User.Data.Updated" updatedUser ;;;
  ret {| resp_status := 204; resp_body := None |}.
End Handlers.

(** The handlers the router can hold, and a registered route: method,
    path, the statuses its guard declares, and the handler. *)
Inductive Handler := HGetProfile | HPatchProfile | HPostProfilePassword.

Record Route := mkRoute {
  route_method : Method;
  route_path : string;
  route_status : list Z;
  route_handler : Handler
}.

(** [profileRoutes(router, { queries, libraries })]: returns before any
    registration unless [EnvSet.values.isDevFeaturesEnabled]. *)
Definition profileRoutes (isDevFeaturesEnabled : bool) (router : list Route)
    : list Route :=
  if negb isDevFeaturesEnabled then router
  else
    router ++
    [ {| route_method := GET; route_path := "/profile";
         route_status := [200]; route_handler := HGetProfile |};
      {| route_method := PATCH; route_path := "/profile";
         route_status := [200; 400; 422]; route_handler := HPatchProfile |};
      {| route_method := POST; route_path := "/profile/password";
         route_status := [204; 400]; route_handler := HPostProfilePassword |} ].

(** The route a request is matched to, if any. *)
Definition findRoute (router : list Route) (m : Method) (p : string)
    : option Route :=
  List.find (fun r => bool_decide (route_method r = m /\ route_path r = p)) router.

(** The body a request arrives with, once its guard has parsed it. *)
Inductive RequestBody :=
  | NoBody
  | PatchProfileJson (body : PatchProfileBody)
  | PostPasswordJson (body : PostPasswordBody).

Definition guard_invalid_input : RequestError :=
  {| code := "guard.invalid_input"; status := 400 |}.

Definition runHandler (libs : Collaborators) (h : Handler) (auth : AuthContext)
    (rb : RequestBody) : M Response :=
  match h, rb with
  | HGetProfile, _ => getProfile auth
  | HPatchProfile, PatchProfileJson body => patchProfile libs auth body
  | HPostProfilePassword, PostPasswordJson body => postProfilePassword libs auth body
  | _, _ => throw guard_invalid_input
  end.

(** The computation a request is dispatched to, if a route matches. *)
Definition dispatch (libs : Collaborators) (router : list Route) (m : Method)
    (p : string) (auth : AuthContext) (rb : RequestBody) : option (M Response) :=
  (fun r => runHandler libs (route_handler r) auth rb) <$> findRoute router m p.

End ProfileApi.

(** ** [routes/session/profile.ts] *)

Module SessionProfile.

Record PatchProfileBody := mkPatchProfileBody {
  body_name : option (option string);
  body_avatar : option (option string);
  body_customData : option (gmap string string)
}.

Record IdentitiesBody := mkIdentitiesBody {
  connectorId : string;
  data : string
}.

Section Handlers.
Variable libs : Collaborators.

(** [const { accountId: userId } = await provider.Session.get(ctx)]
    and the assertion that follows it. *)
Definition sessionUser (sess : Session) : M string :=
  assertTruthy (accountId sess) auth_unauthorized.

(** [const userId = await checkSessionHealth(ctx, provider,
    verificationTimeout)] and the assertion that follows it. *)
Definition healthyUser (sess : Session) : M string :=
  userId <- liftResult (checkSessionHealth libs sess (verificationTimeout libs)) ;;
  assertTruthy userId auth_unauthorized.

(** [router.get(profileRoute, ...)] *)
Definition getProfile (sess : Session) : M Response :=
  userId <- sessionUser sess ;;
  user <- findUserById userId ;;
  ret {| resp_status := 200; resp_body := Some (pickUserInfo libs user) |}.

(** [router.patch(profileRoute, ...)] *)
Definition patchProfile (sess : Session) (body : PatchProfileBody)
    : M Response :=
  userId <- sessionUser sess ;;
  updateUserById userId
    {| set_username := None; set_primaryEmail := None;
       set_primaryPhone := None; set_passwordEncrypted := None;
       set_passwordEncryptionMethod := None;
       set_name := body_name body; set_avatar := body_avatar body;
       set_customData := body_customData body;
       set_profile := None; set_identities := None |} (jsonbModeDefault libs) ;;;
  ret {| resp_status := 204; resp_body := None |}.

(** [router.patch(`${profileRoute}/username`, ...)] *)
Definition patchUsername (sess : Session) (username : string) : M Response :=
  userId <- healthyUser sess ;;
  checkSignUpIdentifierCollision
    {| cand_username := Some username; cand_primaryEmail := None;
       cand_primaryPhone := None |} (Some userId) ;;;
  user <- updateUserById userId
            {| set_username := Some (Some username); set_primaryEmail := None;
               set_primaryPhone := None; set_passwordEncrypted := None;
               set_passwordEncryptionMethod := None;
               set_name := None; set_avatar := None; set_customData := None;
               set_profile := None; set_identities := None |} Replace ;;
  ret {| resp_status := 200; resp_body := Some (pickUserInfo libs user) |}.

(** [router.patch(`${profileRoute}/password`, ...)] *)
Definition patchPassword (sess : Session) (password : string) : M Response :=
  userId <- healthyUser sess ;;
  user <- findUserById userId ;;
  let oldPasswordEncrypted := passwordEncrypted user in
  assertThat
    (negb (truthy oldPasswordEncrypted)
     || negb (argon2Verify libs password (default "" oldPasswordEncrypted)))
    user_same_password ;;;
  let '(passwordEncrypted', passwordEncryptionMethod') :=
    encryptUserPassword libs password in
  updateUserById userId
    {| set_username := None; set_primaryEmail := None;
       set_primaryPhone := None;
       set_passwordEncrypted := Some (Some passwordEncrypted');
       set_passwordEncryptionMethod := Some (Some passwordEncryptionMethod');
       set_name := None; set_avatar := None; set_customData := None;
       set_profile := None; set_identities := None |} (jsonbModeDefault libs) ;;;
  ret {| resp_status := 204; resp_body := None |}.

(** [router.patch(`${profileRoute}/email`, ...)]: the collision check
    is called without a second argument. *)
Definition patchEmail (sess : Session) (primaryEmail : string) : M Response :=
  userId <- healthyUser sess ;;
  checkSignUpIdentifierCollision
    {| cand_username := None; cand_primaryEmail := Some primaryEmail;
       cand_primaryPhone := None |} None ;;;
  updateUserById userId
    {| set_username := None; set_primaryEmail := Some (Some primaryEmail);
       set_primaryPhone := None; set_passwordEncrypted := None;
       set_passwordEncryptionMethod := None;
       set_name := None; set_avatar := None; set_customData := None;
       set_profile := None; set_identities := None |} (jsonbModeDefault libs) ;;;
  ret {| resp_status := 204; resp_body := None |}.

(** [router.delete(`${profileRoute}/email`, ...)] *)
Definition deleteEmail (sess : Session) : M Response :=
  userId <- healthyUser sess ;;
  user <- findUserById userId ;;
  assertThat (truthy (primaryEmail user)) user_email_not_exists ;;;
  updateUserById userId
    {| set_username := None; set_primaryEmail := Some None;
       set_primaryPhone := None; set_passwordEncrypted := None;
       set_passwordEncryptionMethod := None;
       set_name := None; set_avatar := None; set_customData := None;
       set_profile := None; set_identities := None |} (jsonbModeDefault libs) ;;;
  ret {| resp_status := 204; resp_body := None |}.

(** [router.patch(`${profileRoute}/phone`, ...)]: the collision check
    is called without a second argument. *)
Definition patchPhone (sess : Session) (primaryPhone : string) : M Response :=
  userId <- healthyUser sess ;;
  checkSignUpIdentifierCollision
    {| cand_username := None; cand_primaryEmail := None;
       cand_primaryPhone := Some primaryPhone |} None ;;;
  updateUserById userId
    {| set_username := None; set_primaryEmail := None;
       set_primaryPhone := Some (Some primaryPhone);
       set_passwordEncrypted := None;
       set_passwordEncryptionMethod := None;
       set_name := None; set_avatar := None; set_customData := None;
       set_profile := None; set_identities := None |} (jsonbModeDefault libs) ;;;
  ret {| resp_status := 204; resp_body := None |}.

(** [router.delete(`${profileRoute}/phone`, ...)] *)
Definition deletePhone (sess : Session) : M Response :=
  userId <- healthyUser sess ;;
  user <- findUserById userId ;;
  assertThat (truthy (primaryPhone user)) user_phone_not_exists ;;;
  updateUserById userId
    {| set_username := None; set_primaryEmail := None;
       set_primaryPhone := Some None; set_passwordEncrypted := None;
       set_passwordEncryptionMethod := None;
       set_name := None; set_avatar := None; set_customData := None;
       set_profile := None; set_identities := None |} (jsonbModeDefault libs) ;;;
  ret {| resp_status := 204; resp_body := None |}.

(** [router.patch(`${profileRoute}/identities`, ...)] *)
Definition patchIdentities (sess : Session) (body : IdentitiesBody)
    : M Response :=
  userId <- healthyUser sess ;;
  target <- liftResult (getLogtoConnectorById libs (connectorId body)) ;;
  socialUserInfo <-
    liftResult (getUserInfoByAuthCode libs (connectorId body) (data body)) ;;
  user <- findUserById userId ;;
  updateUserById userId
    {| set_username := None; set_primaryEmail := None;
       set_primaryPhone := None; set_passwordEncrypted := None;
       set_passwordEncryptionMethod := None;
       set_name := None; set_avatar := None; set_customData := None;
       set_profile := None;
       set_identities :=
         Some (<[target := {| identity_userId := social_id socialUserInfo;
                              details := socialUserInfo |}]> (identities user)) |}
    (jsonbModeDefault libs) ;;;
  ret {| resp_status := 204; resp_body := None |}.

(** [router.delete(`${profileRoute}/identities/:target`, ...)] *)
Definition deleteIdentity (sess : Session) (target : string) : M Response :=
  userId <- sessionUser sess ;;
  user <- findUserById userId ;;
  assertThat (bool_decide (is_Some (identities user !! target)))
             user_identity_not_exists ;;;
  console_log ["##############shit:"; userId; target] ;;;
  deleteUserIdentity userId target ;;;
  ret {| resp_status := 204; resp_body := None |}.

(** The ten operations of the router, each with its guarded input. *)
Inductive Operation :=
  | GetProfile
  | PatchProfile (body : PatchProfileBody)
  | PatchUsername (username : string)
  | PatchPassword (password : string)
  | PatchEmail (primaryEmail : string)
  | DeleteEmail
  | PatchPhone (primaryPhone : string)
  | DeletePhone
  | PatchIdentities (body : IdentitiesBody)
  | DeleteIdentity (target : string).

Definition handle (op : Operation) (sess : Session) : M Response :=
  match op with
  | GetProfile => getProfile sess
  | PatchProfile body => patchProfile sess body
  | PatchUsername username => patchUsername sess username
  | PatchPassword password => patchPassword sess password
  | PatchEmail primaryEmail => patchEmail sess primaryEmail
  | DeleteEmail => deleteEmail sess
  | PatchPhone primaryPhone => patchPhone sess primaryPhone
  | DeletePhone => deletePhone sess
  | PatchIdentities body => patchIdentities sess body
  | DeleteIdentity target => deleteIdentity sess target
  end.

(** The subject id the handler of [op] holds before its assertion:
    read from the session, or what [checkSessionHealth] resolved to. *)
Definition subjectOf (op : Operation) (sess : Session)
    : RequestError + option string :=
  match op with
  | GetProfile | PatchProfile _ | DeleteIdentity _ => inr (accountId sess)
  | _ => checkSessionHealth libs sess (verificationTimeout libs)
  end.
End Handlers.

End SessionProfile.


(** ** The tenant domain settings page *)

(** [TenantDomainSettings] and its [CustomDomain] component, as functions
    from what the hooks return to the element tree they render. *)
Module TenantDomainSettings.

(** [Domain] of [@logto/schemas]; the components read [status] only. *)
Record Domain := mkDomain {
  domain_id : string;
  domain_name : string;
  domain_status : string
}.

(** [DomainStatus.Active]. *)
Definition DomainStatus_Active : string := "Active".

(** What a callback handed to a child does with SWR's [mutate]:
    [mutate()] or [mutate(data)]. *)
Inductive Mutation :=
  | Revalidate
  | SetData (data : list Domain).

(** The elements of the tree; a child component that is not part of the
    sources is a leaf carrying its props. *)
#[warnings="-register-all"]
Inductive Element :=
  | Div (children : list Element)
  | FormCard (title description : string) (children : list Element)
  | FormField (title : string) (children : list Element)
  | CustomDomainHeader (customDomain : Domain) (onDeleteCustomDomain : Mutation)
  | ActivationProcess (customDomain : Domain)
  | AddDomainForm (onCustomDomainAdded : Domain -> Mutation)
  | DefaultDomain.

(** [{cond && <X />}]: the element, or nothing. *)
Definition whenever (cond : bool) (e : Element) : list Element :=
  if cond then [e] else [].

(** [function CustomDomain({ customDomain, onDeleteCustomDomain })] *)
Definition CustomDomain (customDomain : Domain) (onDeleteCustomDomain : Mutation)
    : Element :=
  Div (CustomDomainHeader customDomain onDeleteCustomDomain
       :: whenever (negb (String.eqb (domain_status customDomain) DomainStatus_Active))
            (ActivationProcess customDomain)).

(** What [useSWR('api/domains', fetcher, ...)] returned. *)
Record Swr := mkSwr {
  data : option (list Domain);
  error : option RequestError
}.

(** [function TenantDomainSettings()]: [None] is the [null] it returns
    while loading. *)
Definition TenantDomainSettings (swr : Swr) : option Element :=
  let isLoading :=
    negb (bool_decide (is_Some (data swr))) && negb (bool_decide (is_Some (error swr))) in
  let customDomain :=
    if negb isLoading then
      match data swr with
      | Some ds => head ds
      | None => None
      end
    else None in
  if isLoading then None
  else
    Some
      (Div
         [ FormCard "domain.custom.custom_domain" "domain.custom.custom_domain_description"
             [ FormField "domain.custom.custom_domain_field"
                 [ match customDomain with
                   | Some d => CustomDomain d Revalidate
                   | None => AddDomainForm (fun domain => SetData [domain])
                   end ] ];
           FormCard "domain.default.default_domain"
             "domain.default.default_domain_description"
             [ FormField "domain.default.default_domain_field" [ DefaultDomain ] ] ]).

(** The page around the content of its custom-domain field. *)
Definition page (slot : Element) : Element :=
  Div
    [ FormCard "domain.custom.custom_domain" "domain.custom.custom_domain_description"
        [ FormField "domain.custom.custom_domain_field" [ slot ] ];
      FormCard "domain.default.default_domain"
        "domain.default.default_domain_description"
        [ FormField "domain.default.default_domain_field" [ DefaultDomain ] ] ].

End TenantDomainSettings.

(** ** Frame relations *)

(** [frames R c]: whatever [c] returns or throws, the world it leaves is
    related by [R] to the world it started in. *)
Definition frames {A} (R : World -> World -> Prop) (c : M A) : Prop :=
  forall w, R w (snd (c w)).

(** The verification records and the clock are as before. *)
Definition sameRecords (w w' : World) : Prop :=
  verificationRecords w' = verificationRecords w /\ now w' = now w.

(** The data-hook context is as before. *)
Definition sameHooks (w w' : World) : Prop :=
  dataHookContext w' = dataHookContext w.

(** Nothing but the trace of store accesses differs, and the trace
    gained no write: the store was at most read. *)
Definition readOnly (w w' : World) : Prop :=
  users w' = users w /\ verificationRecords w' = verificationRecords w /\
  now w' = now w /\ dataHookContext w' = dataHookContext w /\
  console w' = console w /\
  exists ops, storeTrace w' = storeTrace w ++ ops /\
              forallb (fun op => negb (isWrite op)) ops = true.

(** ** Worlds after one effect, and predicates of the statements *)

(** The world after one more store access, after a user was stored, and
    after a data hook was appended. *)
Definition traced (op : StoreOp) (w : World) : World :=
  {| users := users w; verificationRecords := verificationRecords w;
     now := now w; dataHookContext := dataHookContext w;
     console := console w; storeTrace := storeTrace w ++ [op] |}.

Definition stored (userId : string) (u : User) (w : World) : World :=
  {| users := <[userId := u]> (users w);
     verificationRecords := verificationRecords w;
     now := now w; dataHookContext := dataHookContext w;
     console := console w; storeTrace := storeTrace w |}.

(** The second argument of [updateUserById] in the password routes. *)
Definition passwordSet (libs : Collaborators) (password : string) : UserSet :=
  {| set_username := None; set_primaryEmail := None; set_primaryPhone := None;
     set_passwordEncrypted := Some (Some (fst (encryptUserPassword libs password)));
     set_passwordEncryptionMethod :=
       Some (Some (snd (encryptUserPassword libs password)));
     set_name := None; set_avatar := None; set_customData := None;
     set_profile := None; set_identities := None |}.

Definition hooked (event : string) (u : User) (w : World) : World :=
  {| users := users w; verificationRecords := verificationRecords w;
     now := now w; dataHookContext := dataHookContext w ++ [(event, u)];
     console := console w; storeTrace := storeTrace w |}.

(** [recordId] resolves to a record of [userId] that is unconsumed and
    unexpired. *)
Definition resolvesVerified (userId recordId : string) (w : World) : Prop :=
  exists r, verificationRecords w !! recordId = Some r /\
            record_userId r = userId /\
            consumed r = false /\ now w < expiresAt r.

(** The session operations whose handler starts with [checkSessionHealth]. *)
Definition checksHealth (op : SessionProfile.Operation) : bool :=
  match op with
  | SessionProfile.PatchUsername _ | SessionProfile.PatchPassword _
  | SessionProfile.PatchEmail _ | SessionProfile.DeleteEmail
  | SessionProfile.PatchPhone _ | SessionProfile.DeletePhone
  | SessionProfile.PatchIdentities _ => true
  | _ => false
  end.

(** The world after one more console line. *)
Definition logged (args : list string) (w : World) : World :=
  {| users := users w; verificationRecords := verificationRecords w;
     now := now w; dataHookContext := dataHookContext w;
     console := console w ++ [args]; storeTrace := storeTrace w |}.

(** ** Unique identifiers *)

(** No two stored users hold the same value in column [sel]. *)
Definition uniqueBy (sel : User -> option string) (us : gmap string User) : Prop :=
  forall k1 k2 u1 u2 v,
    us !! k1 = Some u1 -> us !! k2 = Some u2 ->
    sel u1 = Some v -> sel u2 = Some v -> k1 = k2.

(** Usernames, primary emails and primary phones are each unique. *)
Definition uniqueIdentifiers (us : gmap string User) : Prop :=
  uniqueBy username us /\ uniqueBy primaryEmail us /\ uniqueBy primaryPhone us.

(** What one write may do to an identifier column of the record of
    [userId]: keep it, clear it, or set it to a value no other stored
    user holds. *)
Definition identifierStep (sel : User -> option string) (userId : string)
    (us : gmap string User) (u u' : User) : Prop :=
  sel u' = sel u \/ sel u' = None \/
  exists v, sel u' = Some v /\ ~ heldByOther sel v (Some userId) us.

(** The three identifier columns of [userId] each make such a step. *)
Definition identifierSteps (userId : string) (us : gmap string User)
    (u u' : User) : Prop :=
  identifierStep username userId us u u' /\
  identifierStep primaryEmail userId us u u' /\
  identifierStep primaryPhone userId us u u'.

(** The session operations that write the password columns, the
    identities, and the display columns (name, avatar, custom data). *)
Definition changesPassword (op : SessionProfile.Operation) : bool :=
  match op with
  | SessionProfile.PatchPassword _ => true
  | _ => false
  end.

Definition changesIdentities (op : SessionProfile.Operation) : bool :=
  match op with
  | SessionProfile.PatchIdentities _ | SessionProfile.DeleteIdentity _ => true
  | _ => false
  end.

Definition changesDisplay (op : SessionProfile.Operation) : bool :=
  match op with
  | SessionProfile.PatchProfile _ => true
  | _ => false
  end.

(** The columns of the written record that [op] leaves as they were. *)
Definition columnsKept (op : SessionProfile.Operation) (u u' : User) : Prop :=
  user_id u' = user_id u /\ profile u' = profile u /\
  (changesPassword op = false ->
   passwordEncrypted u' = passwordEncrypted u /\
   passwordEncryptionMethod u' = passwordEncryptionMethod u) /\
  (changesIdentities op = false -> identities u' = identities u) /\
  (changesDisplay op = false ->
   name u' = name u /\ avatar u' = avatar u /\ customData u' = customData u).

(** The two outcomes of [PATCH /profile] started in [w]: an error with
    the users and the data-hook context as before, or the answer 200 with
    one write to the record of the acting subject and one
    [User.Data.Updated] entry that carries the written record. *)
Definition patchProfileOutcome (libs : Collaborators) (auth : ProfileApi.AuthContext)
    (body : ProfileApi.PatchProfileBody) (w : World)
    (run : (RequestError + Response) * World) : Prop :=
  (exists e, fst run = inl e /\ users (snd run) = users w /\
             dataHookContext (snd run) = dataHookContext w) \/
  exists u u',
    fst run = inr {| resp_status := 200;
                     resp_body := Some (project (ProfileApi.scopes auth) u') |} /\
    users w !! ProfileApi.auth_id auth = Some u /\
    u' = applyUserSet (jsonbModeDefault libs)
           (ProfileApi.patchProfileSet (ProfileApi.scopes auth) body) u /\
    users (snd run) = <[ProfileApi.auth_id auth := u']> (users w) /\
    dataHookContext (snd run)
      = dataHookContext w ++ [("User.Data.Updated"%string, u')] /\
    identifierSteps (ProfileApi.auth_id auth) (users w) u u'.

(** The console is as before. *)
Definition sameConsole (w w' : World) : Prop := console w' = console w.


(** ** A sample deployment *)

(** Concrete collaborators, users and records on which the routes can be
    run: a session is healthy when it carries a login timestamp;
    passwords are "hashed" by prefixing a salt tag, and a hash verifies
    under either of two salts. *)
Module Sample.

Definition libs : Collaborators :=
  {| checkSessionHealth := fun sess _ =>
       match loginTs sess with
       | Some _ => inr (accountId sess)
       | None => inl {| code := "auth.require_re_authentication"; status := 401 |}
       end;
     verificationTimeout := 600;
     argon2Verify := fun password hash =>
       String.eqb hash ("$argon2i$s1$" +:+ password)
       || String.eqb hash ("$argon2i$s2$" +:+ password);
     encryptUserPassword := fun password =>
       ("$argon2i$s2$" +:+ password, "Argon2i"%string);
     getLogtoConnectorById := fun connectorId =>
       if String.eqb connectorId "github-connector" then inr "github"%string
       else inl entity_not_found;
     getUserInfoByAuthCode := fun _ data =>
       if String.eqb data "" then
         inl {| code := "session.invalid_connector_request"; status := 400 |}
       else inr {| social_id := data; social_raw := data |};
     pickUserInfo := fun u =>
       {| user_id := user_id u; username := username u;
          primaryEmail := primaryEmail u; primaryPhone := primaryPhone u;
          passwordEncrypted := None; passwordEncryptionMethod := None;
          name := name u; avatar := avatar u; customData := customData u;
          profile := profile u; identities := identities u |};
     jsonbModeDefault := Merge |}.

Definition alice : User :=
  {| user_id := "u1"; username := Some "alice";
     primaryEmail := Some "a@x.com"; primaryPhone := None;
     passwordEncrypted := Some "$argon2i$s1$pw1";
     passwordEncryptionMethod := Some "Argon2i";
     name := Some "Alice"; avatar := None; customData := ∅;
     profile := {[ "address" := "1 Main St" ]};
     identities := {[ "google" := {| identity_userId := "g-1";
                                      details := {| social_id := "g-1";
                                                    social_raw := "g-1" |} |} ]} |}.

Definition bob : User :=
  {| user_id := "u2"; username := Some "bob";
     primaryEmail := None; primaryPhone := None;
     passwordEncrypted := None; passwordEncryptionMethod := None;
     name := None; avatar := None; customData := ∅;
     profile := ∅; identities := ∅ |}.

Definition carol : User :=
  {| user_id := "u3"; username := None;
     primaryEmail := None; primaryPhone := Some "+15550100";
     passwordEncrypted := None; passwordEncryptionMethod := None;
     name := None; avatar := None; customData := ∅;
     profile := ∅; identities := ∅ |}.

Definition record1 : VerificationRecord :=
  {| record_id := "r1"; record_userId := "u1"; record_target := None;
     consumed := false; expiresAt := 1000 |}.

Definition world : World :=
  {| users := {[ "u1" := alice; "u2" := bob; "u3" := carol ]};
     verificationRecords := {[ "r1" := record1 ]};
     now := 500; dataHookContext := []; console := []; storeTrace := [] |}.

(** The same users with no verification record at all. *)
Definition worldNoRecords : World :=
  {| users := users world; verificationRecords := ∅;
     now := 500; dataHookContext := []; console := []; storeTrace := [] |}.

Definition aliceSession : Session :=
  {| accountId := Some "u1"; loginTs := Some 490 |}.
Definition bobSession : Session :=
  {| accountId := Some "u2"; loginTs := Some 495 |}.
Definition carolSession : Session :=
  {| accountId := Some "u3"; loginTs := Some 499 |}.

Definition aliceAuth : ProfileApi.AuthContext :=
  {| ProfileApi.auth_id := "u1";
     ProfileApi.scopes := {[ UserScope_Profile ]} |}.

(** [PATCH /profile] with [{ name: "Al" }]. *)
Definition renameBody : ProfileApi.PatchProfileBody :=
  {| ProfileApi.body_name := Some (Some "Al"); ProfileApi.body_avatar := None;
     ProfileApi.body_username := None; ProfileApi.body_profile := None |}.

(** [PATCH /profile] with
    [{ profile: { address: "9 Elm Rd", nickname: "al" } }]. *)
Definition profileBody : ProfileApi.PatchProfileBody :=
  {| ProfileApi.body_name := None; ProfileApi.body_avatar := None;
     ProfileApi.body_username := None;
     ProfileApi.body_profile :=
       Some {[ "address" := "9 Elm Rd"; "nickname" := "al" ]} |}.


(** What [PATCH /session/profile/username] answers alice with when she
    takes the username ["alicia"]. *)
Definition aliciaResponse : Response :=
  {| resp_status := 200;
     resp_body :=
       Some (pickUserInfo libs
               (applyUserSet Replace
                  {| set_username := Some (Some "alicia"); set_primaryEmail := None;
                     set_primaryPhone := None; set_passwordEncrypted := None;
                     set_passwordEncryptionMethod := None;
                     set_name := None; set_avatar := None; set_customData := None;
                     set_profile := None; set_identities := None |} alice)) |}.

End Sample.


(** * Properties *)

(** ** Running a handler step by step *)

Lemma bind_inr {A B} (c : M A) (k : A -> M B) w a w' :
  c w = (inr a, w') -> bind c k w = k a w'.
Proof. intros H. unfold bind. rewrite H. reflexivity. Qed.

Lemma bind_inl {A B} (c : M A) (k : A -> M B) w e w' :
  c w = (inl e, w') -> bind c k w = (inl e, w').
Proof. intros H. unfold bind. rewrite H. reflexivity. Qed.

Lemma bind_inr_inv {A B} (c : M A) (k : A -> M B) w b w' :
  bind c k w = (inr b, w') ->
  exists a w1, c w = (inr a, w1) /\ k a w1 = (inr b, w').
Proof.
  unfold bind. destruct (c w) as [[e|a] w1]; intros H.
  - discriminate.
  - exists a, w1. split; [reflexivity | exact H].
Qed.

Lemma bind_cases {A B} (c : M A) (k : A -> M B) w :
  (exists e w1, c w = (inl e, w1) /\ bind c k w = (inl e, w1)) \/
  (exists a w1, c w = (inr a, w1) /\ bind c k w = k a w1).
Proof.
  unfold bind. destruct (c w) as [[e|a] w1]; [left | right]; eauto.
Qed.

Ltac bind_case H :=
  match goal with
  | |- context [bind ?c ?k ?w] =>
      let e := fresh "e" in
      let a := fresh "a" in
      let w1 := fresh "w" in
      destruct (bind_cases c k w) as [(e & w1 & H & ->)|(a & w1 & H & ->)]
  end.

Lemma assertTruthy_inr o e w s w' :
  assertTruthy o e w = (inr s, w') -> o = Some s /\ s <> "" /\ w' = w.
Proof.
  unfold assertTruthy, throw, ret. destruct o as [t|]; [|discriminate].
  destruct (String.eqb_spec t ""); [discriminate|].
  intros [= -> ->]. auto.
Qed.

Lemma assertTruthy_Some s e w :
  s <> "" -> assertTruthy (Some s) e w = (inr s, w).
Proof.
  intros Hs. unfold assertTruthy. destruct (String.eqb_spec s ""); [contradiction|].
  reflexivity.
Qed.

Lemma assertTruthy_falsy o e w :
  truthy o = false -> assertTruthy o e w = (inl e, w).
Proof.
  unfold truthy, assertTruthy. destruct o as [s|]; [|reflexivity].
  destruct (String.eqb s ""); [reflexivity | discriminate].
Qed.

Lemma assertThat_inr c e w u w' :
  assertThat c e w = (inr u, w') -> c = true /\ w' = w.
Proof. unfold assertThat, throw, ret. destruct c; [|discriminate]. intros [= _ ->]. auto. Qed.

(** ** Frame conditions *)

Section Frames.
Context (R : World -> World -> Prop) `{!PreOrder R}.

Lemma frames_ret {A} (a : A) : frames R (ret a).
Proof. intros w. simpl. reflexivity. Qed.

Lemma frames_throw {A} e : frames R (@throw A e).
Proof. intros w. simpl. reflexivity. Qed.

Lemma frames_bind {A B} (c : M A) (k : A -> M B) :
  frames R c -> (forall a, frames R (k a)) -> frames R (bind c k).
Proof.
  intros Hc Hk w. unfold bind. specialize (Hc w).
  destruct (c w) as [[e|a] w1]; simpl in *; [exact Hc|].
  etransitivity; [exact Hc | apply Hk].
Qed.

Lemma frames_assertThat c e : frames R (assertThat c e).
Proof. destruct c; [apply frames_ret | apply frames_throw]. Qed.

Lemma frames_assertTruthy o e : frames R (assertTruthy o e).
Proof.
  destruct o as [s|]; simpl; [|apply frames_throw].
  destruct (String.eqb s ""); [apply frames_throw | apply frames_ret].
Qed.

Lemma frames_liftResult {A} (r : RequestError + A) : frames R (liftResult r).
Proof. destruct r; [apply frames_throw | apply frames_ret]. Qed.

Lemma frames_getWorld : frames R getWorld.
Proof. intros w. simpl. reflexivity. Qed.
End Frames.

#[global] Instance sameRecords_preorder : PreOrder sameRecords.
Proof.
  split.
  - intros w. split; reflexivity.
  - intros a b c [H1 H2] [H3 H4]. split; congruence.
Qed.

#[global] Instance sameHooks_preorder : PreOrder sameHooks.
Proof. split; [intros w; reflexivity | intros a b c H1 H2; unfold sameHooks in *; congruence]. Qed.

#[global] Instance readOnly_preorder : PreOrder readOnly.
Proof.
  split.
  - intros w. repeat (split; [reflexivity|]).
    exists []. split; [by rewrite app_nil_r | reflexivity].
  - intros a b c (H1 & H2 & H3 & H4 & H5 & o1 & E1 & F1)
                 (G1 & G2 & G3 & G4 & G5 & o2 & E2 & F2).
    repeat (split; [congruence|]).
    exists (o1 ++ o2). split.
    + rewrite E2, E1, app_assoc. reflexivity.
    + rewrite forallb_app, F1, F2. reflexivity.
Qed.

Lemma frames_run {A} (R : World -> World -> Prop) (c : M A) w x w' :
  frames R c -> c w = (x, w') -> R w w'.
Proof. intros H E. specialize (H w). rewrite E in H. exact H. Qed.

Create HintDb frames discriminated.

Ltac frames_step :=
  first
    [ solve [auto with frames]
    | apply frames_ret; typeclasses eauto
    | apply frames_throw; typeclasses eauto
    | apply frames_assertThat; typeclasses eauto
    | apply frames_assertTruthy; typeclasses eauto
    | apply frames_liftResult; typeclasses eauto
    | apply frames_getWorld; typeclasses eauto
    | apply frames_bind; [typeclasses eauto | | intros ?]
    | match goal with
      | |- frames _ (match ?x with _ => _ end) => destruct x
      end ].

Ltac frames_tac := repeat frames_step.

(** *** The verification records are never written *)

Lemma logStore_sameRecords op : frames sameRecords (logStore op).
Proof. intros w. split; reflexivity. Qed.

Lemma putUsers_sameRecords us : frames sameRecords (putUsers us).
Proof. intros w. split; reflexivity. Qed.

Lemma appendDataHookContext_sameRecords ev u :
  frames sameRecords (appendDataHookContext ev u).
Proof. intros w. split; reflexivity. Qed.

Lemma console_log_sameRecords args : frames sameRecords (console_log args).
Proof. intros w. split; reflexivity. Qed.

#[global] Hint Resolve logStore_sameRecords putUsers_sameRecords
  appendDataHookContext_sameRecords console_log_sameRecords : frames.

Lemma findUserById_sameRecords userId : frames sameRecords (findUserById userId).
Proof. unfold findUserById. frames_tac. Qed.

Lemma updateUserById_sameRecords userId s mode :
  frames sameRecords (updateUserById userId s mode).
Proof. unfold updateUserById. frames_tac. Qed.

Lemma deleteUserIdentity_sameRecords userId target :
  frames sameRecords (deleteUserIdentity userId target).
Proof. unfold deleteUserIdentity. frames_tac. Qed.

Lemma checkField_sameRecords f sel c ex : frames sameRecords (checkField f sel c ex).
Proof. unfold checkField. frames_tac. Qed.

#[global] Hint Resolve findUserById_sameRecords updateUserById_sameRecords
  deleteUserIdentity_sameRecords checkField_sameRecords : frames.

Lemma checkIdentifierCollision_sameRecords c ex :
  frames sameRecords (checkIdentifierCollision c ex).
Proof. unfold checkIdentifierCollision. frames_tac. Qed.

Lemma buildUserVerificationRecordById_sameRecords userId recordId :
  frames sameRecords (buildUserVerificationRecordById userId recordId).
Proof. unfold buildUserVerificationRecordById. frames_tac. Qed.

Lemma getScopedProfile_sameRecords scs userId :
  frames sameRecords (getScopedProfile scs userId).
Proof. unfold getScopedProfile. frames_tac. Qed.

#[global] Hint Resolve checkIdentifierCollision_sameRecords
  buildUserVerificationRecordById_sameRecords getScopedProfile_sameRecords : frames.

Lemma postProfilePassword_sameRecords libs auth body :
  frames sameRecords (ProfileApi.postProfilePassword libs auth body).
Proof. unfold ProfileApi.postProfilePassword. frames_tac. Qed.

Lemma getProfile_sameRecords auth :
  frames sameRecords (ProfileApi.getProfile auth).
Proof. unfold ProfileApi.getProfile. frames_tac. Qed.

Lemma patchProfile_sameRecords libs auth body :
  frames sameRecords (ProfileApi.patchProfile libs auth body).
Proof. unfold ProfileApi.patchProfile. frames_tac. Qed.

Lemma session_handle_sameRecords libs op sess :
  frames sameRecords (SessionProfile.handle libs op sess).
Proof.
  destruct op; simpl;
    unfold SessionProfile.getProfile, SessionProfile.patchProfile,
      SessionProfile.patchUsername, SessionProfile.patchPassword,
      SessionProfile.patchEmail, SessionProfile.deleteEmail,
      SessionProfile.patchPhone, SessionProfile.deletePhone,
      SessionProfile.patchIdentities, SessionProfile.deleteIdentity,
      SessionProfile.sessionUser, SessionProfile.healthyUser,
      checkSignUpIdentifierCollision;
    frames_tac.
Qed.

(** *** The session routes leave the data-hook context alone *)

Lemma logStore_sameHooks op : frames sameHooks (logStore op).
Proof. intros w. reflexivity. Qed.

Lemma putUsers_sameHooks us : frames sameHooks (putUsers us).
Proof. intros w. reflexivity. Qed.

Lemma console_log_sameHooks args : frames sameHooks (console_log args).
Proof. intros w. reflexivity. Qed.

#[global] Hint Resolve logStore_sameHooks putUsers_sameHooks
  console_log_sameHooks : frames.

Lemma findUserById_sameHooks userId : frames sameHooks (findUserById userId).
Proof. unfold findUserById. frames_tac. Qed.

Lemma updateUserById_sameHooks userId s mode :
  frames sameHooks (updateUserById userId s mode).
Proof. unfold updateUserById. frames_tac. Qed.

Lemma deleteUserIdentity_sameHooks userId target :
  frames sameHooks (deleteUserIdentity userId target).
Proof. unfold deleteUserIdentity. frames_tac. Qed.

Lemma checkField_sameHooks f sel c ex : frames sameHooks (checkField f sel c ex).
Proof. unfold checkField. frames_tac. Qed.

#[global] Hint Resolve findUserById_sameHooks updateUserById_sameHooks
  deleteUserIdentity_sameHooks checkField_sameHooks : frames.

Lemma checkIdentifierCollision_sameHooks c ex :
  frames sameHooks (checkIdentifierCollision c ex).
Proof. unfold checkIdentifierCollision. frames_tac. Qed.

#[global] Hint Resolve checkIdentifierCollision_sameHooks : frames.

Lemma session_handle_sameHooks libs op sess :
  frames sameHooks (SessionProfile.handle libs op sess).
Proof.
  destruct op; simpl;
    unfold SessionProfile.getProfile, SessionProfile.patchProfile,
      SessionProfile.patchUsername, SessionProfile.patchPassword,
      SessionProfile.patchEmail, SessionProfile.deleteEmail,
      SessionProfile.patchPhone, SessionProfile.deletePhone,
      SessionProfile.patchIdentities, SessionProfile.deleteIdentity,
      SessionProfile.sessionUser, SessionProfile.healthyUser,
      checkSignUpIdentifierCollision;
    frames_tac.
Qed.

(** ** What the store operations do *)

Lemma findUserById_found userId u w :
  users w !! userId = Some u ->
  findUserById userId w = (inr u, traced (OpFind userId) w).
Proof.
  intros H. unfold findUserById, bind, logStore, getWorld. simpl.
  rewrite H. reflexivity.
Qed.

Lemma findUserById_inr userId u w w' :
  findUserById userId w = (inr u, w') ->
  users w !! userId = Some u /\ w' = traced (OpFind userId) w.
Proof.
  unfold findUserById, bind, logStore, getWorld. simpl.
  destruct (users w !! userId) as [u0|]; simpl; [|discriminate].
  intros [= -> <-]. auto.
Qed.

Lemma updateUserById_found userId s mode u w :
  users w !! userId = Some u ->
  updateUserById userId s mode w =
    (inr (applyUserSet mode s u),
     stored userId (applyUserSet mode s u) (traced (OpUpdate userId) w)).
Proof.
  intros H. unfold updateUserById, bind, logStore, getWorld. simpl.
  rewrite H. reflexivity.
Qed.

Lemma updateUserById_inr userId s mode u' w w' :
  updateUserById userId s mode w = (inr u', w') ->
  exists u, users w !! userId = Some u /\ u' = applyUserSet mode s u /\
            w' = stored userId u' (traced (OpUpdate userId) w).
Proof.
  unfold updateUserById, bind, logStore, getWorld. simpl.
  destruct (users w !! userId) as [u|]; simpl; [|discriminate].
  intros [= <- <-]. exists u. auto.
Qed.

Lemma buildUserVerificationRecordById_inr userId recordId r w w' :
  buildUserVerificationRecordById userId recordId w = (inr r, w') ->
  verificationRecords w !! recordId = Some r /\ record_userId r = userId /\ w' = w.
Proof.
  unfold buildUserVerificationRecordById, bind, getWorld. simpl.
  destruct (verificationRecords w !! recordId) as [r0|]; [|discriminate].
  destruct (String.eqb_spec (record_userId r0) userId); [|discriminate].
  intros [= -> ->]. auto.
Qed.

Lemma buildUserVerificationRecordById_found userId recordId r w :
  verificationRecords w !! recordId = Some r -> record_userId r = userId ->
  buildUserVerificationRecordById userId recordId w = (inr r, w).
Proof.
  intros H1 H2. unfold buildUserVerificationRecordById, bind, getWorld. simpl.
  rewrite H1. destruct (String.eqb_spec (record_userId r) userId); [|contradiction].
  reflexivity.
Qed.

Lemma isVerified_true nowTs r :
  isVerified nowTs r = true <-> consumed r = false /\ nowTs < expiresAt r.
Proof.
  unfold isVerified, isValid. rewrite andb_true_r, andb_true_iff, negb_true_iff.
  rewrite Z.ltb_lt. reflexivity.
Qed.

(** ** [POST /profile/password] *)

Lemma postProfilePassword_run libs auth body w r u :
  verificationRecords w !! ProfileApi.verificationRecordId body = Some r ->
  record_userId r = ProfileApi.auth_id auth ->
  isVerified (now w) r = true ->
  users w !! ProfileApi.auth_id auth = Some u ->
  let u' := applyUserSet (jsonbModeDefault libs) (passwordSet libs (ProfileApi.password body)) u in
  ProfileApi.postProfilePassword libs auth body w =
    (inr {| resp_status := 204; resp_body := None |},
     hooked "User.Data.Updated" u'
       (stored (ProfileApi.auth_id auth) u'
          (traced (OpUpdate (ProfileApi.auth_id auth)) w))).
Proof.
  intros Hr Ho Hv Hu u'. unfold ProfileApi.postProfilePassword.
  rewrite (bind_inr _ _ _ _ _ (buildUserVerificationRecordById_found _ _ _ _ Hr Ho)).
  unfold bind at 1. simpl. unfold bind at 1. rewrite Hv. simpl.
  subst u'. unfold passwordSet.
  destruct (encryptUserPassword libs (ProfileApi.password body)) as [pe pm]. simpl.
  rewrite (bind_inr _ _ _ _ _ (updateUserById_found _ _ _ _ _ Hu)).
  reflexivity.
Qed.

Lemma postProfilePassword_inr libs auth body w resp w' :
  ProfileApi.postProfilePassword libs auth body w = (inr resp, w') ->
  exists r u,
    verificationRecords w !! ProfileApi.verificationRecordId body = Some r /\
    record_userId r = ProfileApi.auth_id auth /\
    isVerified (now w) r = true /\
    users w !! ProfileApi.auth_id auth = Some u.
Proof.
  unfold ProfileApi.postProfilePassword. intros H.
  apply bind_inr_inv in H as (r & w1 & Hb & H).
  apply buildUserVerificationRecordById_inr in Hb as (Hr & Ho & ->).
  apply bind_inr_inv in H as (w2 & w3 & Hg & H). injection Hg as <- <-.
  apply bind_inr_inv in H as ([] & w4 & Ha & H).
  apply assertThat_inr in Ha as [Hv ->].
  destruct (encryptUserPassword libs (ProfileApi.password body)) as [pe pm].
  apply bind_inr_inv in H as (u' & w5 & Hup & _).
  apply updateUserById_inr in Hup as (u & Hu & _).
  exists r, u. auto.
Qed.

(** C1 (as the code has it): a successful [POST /profile/password] does
    not consume the record it used: the record is still stored,
    unconsumed, and a later request that reuses the same record id passes
    verification and succeeds again.  No route of either router writes to
    the verification record store, whatever it answers. *)
Theorem postProfilePassword_record_not_consumed libs :
  (forall auth body w resp w',
     ProfileApi.postProfilePassword libs auth body w = (inr resp, w') ->
     (exists r, verificationRecords w' !! ProfileApi.verificationRecordId body = Some r
                /\ consumed r = false) /\
     forall body',
       ProfileApi.verificationRecordId body' = ProfileApi.verificationRecordId body ->
       exists w'',
         ProfileApi.postProfilePassword libs auth body' w' =
           (inr {| resp_status := 204; resp_body := None |}, w'')) /\
  (forall auth body w,
     verificationRecords (snd (ProfileApi.postProfilePassword libs auth body w))
     = verificationRecords w) /\
  (forall auth body w,
     verificationRecords (snd (ProfileApi.patchProfile libs auth body w))
     = verificationRecords w) /\
  (forall auth w,
     verificationRecords (snd (ProfileApi.getProfile auth w))
     = verificationRecords w) /\
  (forall op sess w,
     verificationRecords (snd (SessionProfile.handle libs op sess w))
     = verificationRecords w).
Proof.
  split; [|split; [|split; [|split]]].
  - intros auth body w resp w' H.
    destruct (postProfilePassword_inr _ _ _ _ _ _ H) as (r & u & Hr & Ho & Hv & Hu).
    pose proof (postProfilePassword_run libs auth body w r u Hr Ho Hv Hu) as Hrun.
    simpl in Hrun. rewrite Hrun in H. injection H as _ <-. simpl. split.
    + exists r. split; [exact Hr|]. apply isVerified_true in Hv. tauto.
    + intros body' Hid. eexists.
      apply (postProfilePassword_run libs auth body' _ r); simpl.
      * rewrite Hid. exact Hr.
      * exact Ho.
      * exact Hv.
      * apply lookup_insert_eq.
  - intros auth body w. apply postProfilePassword_sameRecords.
  - intros auth body w. apply patchProfile_sameRecords.
  - intros auth w. apply getProfile_sameRecords.
  - intros op sess w. apply session_handle_sameRecords.
Qed.

Lemma postProfilePassword_record_not_consumed_witness :
  exists r,
    verificationRecords
      (snd (ProfileApi.postProfilePassword Sample.libs Sample.aliceAuth
              {| ProfileApi.password := "pw2";
                 ProfileApi.verificationRecordId := "r1" |} Sample.world))
      !! "r1" = Some r
    /\ consumed r = false.
Proof.
  refine (proj1 (proj1 (postProfilePassword_record_not_consumed Sample.libs)
                   Sample.aliceAuth
                   {| ProfileApi.password := "pw2";
                      ProfileApi.verificationRecordId := "r1" |} Sample.world
                   {| resp_status := 204; resp_body := None |}
                   (snd (ProfileApi.postProfilePassword Sample.libs Sample.aliceAuth
                           {| ProfileApi.password := "pw2";
                              ProfileApi.verificationRecordId := "r1" |}
                           Sample.world)) _)).
  vm_compute. reflexivity.
Defined.

(** C1 (as stated) fails: after a password change that used record [r1],
    a second change presenting [r1] again is not rejected. *)
Lemma verification_record_reused :
  let body1 := {| ProfileApi.password := "pw2";
                  ProfileApi.verificationRecordId := "r1" |} in
  let body2 := {| ProfileApi.password := "pw3";
                  ProfileApi.verificationRecordId := "r1" |} in
  let first := ProfileApi.postProfilePassword Sample.libs Sample.aliceAuth body1
                 Sample.world in
  let second := ProfileApi.postProfilePassword Sample.libs Sample.aliceAuth body2
                  (snd first) in
  fst first = inr {| resp_status := 204; resp_body := None |} /\
  verificationRecords (snd first) !! "r1" = Some Sample.record1 /\
  consumed Sample.record1 = false /\
  fst second = inr {| resp_status := 204; resp_body := None |} /\
  fst second <> inl verification_record_not_found /\
  passwordEncrypted <$> (users (snd second) !! "u1") = Some (Some "$argon2i$s2$pw3").
Proof. vm_compute. repeat split; discriminate. Qed.

(** ** Authentication on the session routes *)


(** ** Route registration *)

(** C10: with the dev-features flag off, [profileRoutes] returns the
    router as it received it, so no method and path is matched to a route
    of this module; with the flag on, exactly [GET /profile],
    [PATCH /profile] and [POST /profile/password] are registered. *)
Theorem profileRoutes_dev_features_gate :
  (forall router, ProfileApi.profileRoutes false router = router) /\
  (forall m p, ProfileApi.findRoute (ProfileApi.profileRoutes false []) m p = None) /\
  (forall libs m p auth rb,
     ProfileApi.dispatch libs (ProfileApi.profileRoutes false []) m p auth rb = None) /\
  map (fun r => (ProfileApi.route_method r, ProfileApi.route_path r,
                 ProfileApi.route_handler r))
      (ProfileApi.profileRoutes true [])
  = [ (GET, "/profile", ProfileApi.HGetProfile);
      (PATCH, "/profile", ProfileApi.HPatchProfile);
      (POST, "/profile/password", ProfileApi.HPostProfilePassword) ].
Proof. repeat split. Qed.

(** ** Reads leave the world alone *)

Lemma logStore_readOnly op : isWrite op = false -> frames readOnly (logStore op).
Proof.
  intros H w. simpl. repeat (split; [reflexivity|]).
  exists [op]. split; [reflexivity|]. simpl. rewrite H. reflexivity.
Qed.

Lemma logStore_find_readOnly userId : frames readOnly (logStore (OpFind userId)).
Proof. apply logStore_readOnly. reflexivity. Qed.

Lemma logStore_lookup_readOnly f v : frames readOnly (logStore (OpLookupIdentifier f v)).
Proof. apply logStore_readOnly. reflexivity. Qed.

#[global] Hint Resolve logStore_find_readOnly logStore_lookup_readOnly : frames.

Lemma findUserById_readOnly userId : frames readOnly (findUserById userId).
Proof. unfold findUserById. frames_tac. Qed.

Lemma checkField_readOnly f sel c ex : frames readOnly (checkField f sel c ex).
Proof. unfold checkField. frames_tac. Qed.

#[global] Hint Resolve findUserById_readOnly checkField_readOnly : frames.

Lemma checkIdentifierCollision_readOnly c ex :
  frames readOnly (checkIdentifierCollision c ex).
Proof. unfold checkIdentifierCollision. frames_tac. Qed.

Lemma getScopedProfile_readOnly scs userId :
  frames readOnly (getScopedProfile scs userId).
Proof. unfold getScopedProfile. frames_tac. Qed.

#[global] Hint Resolve checkIdentifierCollision_readOnly getScopedProfile_readOnly
  : frames.

(** ** Gates in front of the sensitive mutations *)

Lemma postProfilePassword_unverified libs auth body w :
  ~ resolvesVerified (ProfileApi.auth_id auth) (ProfileApi.verificationRecordId body) w ->
  ProfileApi.postProfilePassword libs auth body w =
    (inl verification_record_not_found, w).
Proof.
  intros Hn. unfold ProfileApi.postProfilePassword, buildUserVerificationRecordById.
  unfold bind, getWorld. simpl.
  destruct (verificationRecords w !! ProfileApi.verificationRecordId body)
    as [r|] eqn:Hr; [|reflexivity].
  destruct (String.eqb_spec (record_userId r) (ProfileApi.auth_id auth)) as [Ho|];
    [|reflexivity].
  simpl. destruct (isVerified (now w) r) eqn:Hv; [|reflexivity].
  exfalso. apply Hn. exists r. apply isVerified_true in Hv. tauto.
Qed.

Ltac unfold_session :=
  unfold SessionProfile.getProfile, SessionProfile.patchProfile,
    SessionProfile.patchUsername, SessionProfile.patchPassword,
    SessionProfile.patchEmail, SessionProfile.deleteEmail,
    SessionProfile.patchPhone, SessionProfile.deletePhone,
    SessionProfile.patchIdentities, SessionProfile.deleteIdentity.

Ltac unfold_session_in H :=
  unfold SessionProfile.getProfile, SessionProfile.patchProfile,
    SessionProfile.patchUsername, SessionProfile.patchPassword,
    SessionProfile.patchEmail, SessionProfile.deleteEmail,
    SessionProfile.patchPhone, SessionProfile.deletePhone,
    SessionProfile.patchIdentities, SessionProfile.deleteIdentity in H.

Lemma healthyUser_inr libs sess w userId w' :
  SessionProfile.healthyUser libs sess w = (inr userId, w') ->
  checkSessionHealth libs sess (verificationTimeout libs) = inr (Some userId)
  /\ userId <> "" /\ w' = w.
Proof.
  unfold SessionProfile.healthyUser, bind, liftResult.
  destruct (checkSessionHealth libs sess (verificationTimeout libs)) as [e|o]; simpl;
    [discriminate|].
  intros H. apply assertTruthy_inr in H as (-> & Hs & ->). auto.
Qed.

Lemma healthyUser_ok libs sess w userId :
  checkSessionHealth libs sess (verificationTimeout libs) = inr (Some userId) ->
  userId <> "" ->
  SessionProfile.healthyUser libs sess w = (inr userId, w).
Proof.
  intros H Hs. unfold SessionProfile.healthyUser, bind, liftResult. rewrite H. simpl.
  apply assertTruthy_Some. exact Hs.
Qed.

Lemma healthyUser_world libs sess w x w1 :
  SessionProfile.healthyUser libs sess w = (x, w1) -> w1 = w.
Proof.
  unfold SessionProfile.healthyUser, bind, liftResult.
  destruct (checkSessionHealth libs sess (verificationTimeout libs)) as [e|o]; simpl.
  - intros [= _ <-]. reflexivity.
  - destruct o as [s|]; simpl; [|intros [= _ <-]; reflexivity].
    destruct (String.eqb s ""); intros [= _ <-]; reflexivity.
Qed.

Lemma healthyUser_inl libs sess w :
  (forall userId, checkSessionHealth libs sess (verificationTimeout libs)
                  = inr (Some userId) -> userId = "") ->
  exists e, SessionProfile.healthyUser libs sess w = (inl e, w).
Proof.
  intros H. unfold SessionProfile.healthyUser, bind, liftResult.
  destruct (checkSessionHealth libs sess (verificationTimeout libs)) as [e|o]; simpl.
  - eauto.
  - exists auth_unauthorized. apply assertTruthy_falsy.
    destruct o as [s|]; [|reflexivity]. rewrite (H s eq_refl). reflexivity.
Qed.

Lemma checksHealth_handle_inr libs op sess w resp w' :
  checksHealth op = true ->
  SessionProfile.handle libs op sess w = (inr resp, w') ->
  exists userId,
    checkSessionHealth libs sess (verificationTimeout libs) = inr (Some userId)
    /\ userId <> "".
Proof.
  intros Hop H.
  destruct op; try discriminate Hop; simpl in H; unfold_session_in H;
    apply bind_inr_inv in H as (userId & w1 & Hh & _);
    apply healthyUser_inr in Hh as (Hc & Hs & _); eauto.
Qed.

Lemma checksHealth_handle_inl libs op sess w :
  checksHealth op = true ->
  (forall userId, checkSessionHealth libs sess (verificationTimeout libs)
                  = inr (Some userId) -> userId = "") ->
  exists e, SessionProfile.handle libs op sess w = (inl e, w).
Proof.
  intros Hop Hn. destruct (healthyUser_inl libs sess w Hn) as [e He].
  exists e.
  destruct op; try discriminate Hop; simpl; unfold_session;
    apply bind_inl; exact He.
Qed.

(** C2 (as the code has it): [POST /profile/password] reaches its write
    only when the record id it was given resolves to a record of the
    acting subject that is unconsumed and unexpired (no target value is
    compared); otherwise it fails with [verification_record.not_found]
    and the world is untouched.  The session routes resolve no
    verification record: the username, password, email, phone and
    identity-linking operations succeed only after [checkSessionHealth]
    resolved to a subject id, and fail with the world untouched
    otherwise. *)
Theorem sensitive_mutation_gates libs :
  (forall auth body w resp w',
     ProfileApi.postProfilePassword libs auth body w = (inr resp, w') ->
     resolvesVerified (ProfileApi.auth_id auth)
                      (ProfileApi.verificationRecordId body) w) /\
  (forall auth body w,
     ~ resolvesVerified (ProfileApi.auth_id auth)
                        (ProfileApi.verificationRecordId body) w ->
     ProfileApi.postProfilePassword libs auth body w =
       (inl verification_record_not_found, w)) /\
  (forall op sess w resp w',
     checksHealth op = true ->
     SessionProfile.handle libs op sess w = (inr resp, w') ->
     exists userId,
       checkSessionHealth libs sess (verificationTimeout libs) = inr (Some userId)
       /\ userId <> "") /\
  (forall op sess w,
     checksHealth op = true ->
     (forall userId, checkSessionHealth libs sess (verificationTimeout libs)
                     = inr (Some userId) -> userId = "") ->
     exists e, SessionProfile.handle libs op sess w = (inl e, w)).
Proof.
  repeat split.
  - intros auth body w resp w' H.
    destruct (postProfilePassword_inr _ _ _ _ _ _ H) as (r & u & Hr & Ho & Hv & _).
    exists r. apply isVerified_true in Hv. tauto.
  - apply postProfilePassword_unverified.
  - apply checksHealth_handle_inr.
  - apply checksHealth_handle_inl.
Qed.

Lemma sensitive_mutation_gates_witness :
  resolvesVerified "u1" "r1" Sample.world /\
  ProfileApi.postProfilePassword Sample.libs Sample.aliceAuth
    {| ProfileApi.password := "pw2"; ProfileApi.verificationRecordId := "r1" |}
    Sample.worldNoRecords
  = (inl verification_record_not_found, Sample.worldNoRecords).
Proof.
  destruct (sensitive_mutation_gates Sample.libs) as (H1 & H2 & _).
  split.
  - eapply (H1 Sample.aliceAuth
              {| ProfileApi.password := "pw2"; ProfileApi.verificationRecordId := "r1" |}
              Sample.world).
    vm_compute. reflexivity.
  - apply H2. intros (r & Hr & _). vm_compute in Hr. discriminate Hr.
Defined.

(** C2 (as stated) fails: with no verification record in the store at
    all, [PATCH /session/profile/email] commits the new email address. *)
Lemma email_changed_without_verification_record :
  let run := SessionProfile.patchEmail Sample.libs Sample.aliceSession "new@x.com"
               Sample.worldNoRecords in
  verificationRecords Sample.worldNoRecords = ∅ /\
  fst run = inr {| resp_status := 204; resp_body := None |} /\
  primaryEmail <$> (users (snd run) !! "u1") = Some (Some "new@x.com") /\
  storeTrace (snd run) = [OpLookupIdentifier "primaryEmail" "new@x.com"; OpUpdate "u1"].
Proof. vm_compute. repeat split. Qed.

(** ** The collision check of the identifier writes *)

Lemma checkField_held f sel v ex w :
  heldByOther sel v ex (users w) ->
  checkField f sel (Some v) ex w = (inl IdentifierExists, traced (OpLookupIdentifier f v) w).
Proof.
  intros H. unfold checkField, bind, logStore, getWorld, assertThat. simpl.
  rewrite bool_decide_eq_true_2 by exact H. reflexivity.
Qed.

Lemma checkField_free f sel v ex w :
  ~ heldByOther sel v ex (users w) ->
  checkField f sel (Some v) ex w = (inr tt, traced (OpLookupIdentifier f v) w).
Proof.
  intros H. unfold checkField, bind, logStore, getWorld, assertThat. simpl.
  rewrite bool_decide_eq_false_2 by exact H. reflexivity.
Qed.

Lemma checkIdentifierCollision_username v ex w :
  checkIdentifierCollision
    {| cand_username := Some v; cand_primaryEmail := None;
       cand_primaryPhone := None |} ex w
  = checkField "username" username (Some v) ex w.
Proof.
  unfold checkIdentifierCollision, bind. cbn [cand_username cand_primaryEmail cand_primaryPhone].
  destruct (checkField "username" username (Some v) ex w) as [[e|[]] w1]; reflexivity.
Qed.

Lemma checkIdentifierCollision_primaryEmail v ex w :
  checkIdentifierCollision
    {| cand_username := None; cand_primaryEmail := Some v;
       cand_primaryPhone := None |} ex w
  = checkField "primaryEmail" primaryEmail (Some v) ex w.
Proof.
  unfold checkIdentifierCollision, bind.
  cbn [cand_username cand_primaryEmail cand_primaryPhone].
  change (checkField "username" username None ex w) with (ret tt w). cbn [ret].
  destruct (checkField "primaryEmail" primaryEmail (Some v) ex w) as [[e|[]] w1];
    reflexivity.
Qed.

Lemma checkIdentifierCollision_primaryPhone v ex w :
  checkIdentifierCollision
    {| cand_username := None; cand_primaryEmail := None;
       cand_primaryPhone := Some v |} ex w
  = checkField "primaryPhone" primaryPhone (Some v) ex w.
Proof. reflexivity. Qed.

(** With no excluded subject, the holder of an identifier collides with
    themselves: [PATCH /session/profile/email] rejects the address the
    acting user already has. *)
Lemma patchEmail_own_email libs sess w userId u email :
  checkSessionHealth libs sess (verificationTimeout libs) = inr (Some userId) ->
  userId <> "" ->
  users w !! userId = Some u ->
  primaryEmail u = Some email ->
  SessionProfile.patchEmail libs sess email w =
    (inl IdentifierExists, traced (OpLookupIdentifier "primaryEmail" email) w).
Proof.
  intros Hh Hs Hu He. unfold SessionProfile.patchEmail.
  rewrite (bind_inr _ _ _ _ _ (healthyUser_ok _ _ _ _ Hh Hs)).
  apply bind_inl. unfold checkSignUpIdentifierCollision.
  rewrite checkIdentifierCollision_primaryEmail. apply checkField_held.
  exists userId, u. split; [exact Hu|]. split; [exact He | discriminate].
Qed.

(** The username route passes the acting subject, and lets the subject
    keep the username they hold. *)
Lemma patchUsername_own_username libs sess w userId u name0 :
  checkSessionHealth libs sess (verificationTimeout libs) = inr (Some userId) ->
  userId <> "" ->
  users w !! userId = Some u ->
  ~ heldByOther username name0 (Some userId) (users w) ->
  exists resp w', SessionProfile.patchUsername libs sess name0 w = (inr resp, w').
Proof.
  intros Hh Hs Hu Hfree. unfold SessionProfile.patchUsername.
  rewrite (bind_inr _ _ _ _ _ (healthyUser_ok _ _ _ _ Hh Hs)).
  erewrite bind_inr;
    [|unfold checkSignUpIdentifierCollision;
      rewrite checkIdentifierCollision_username; apply checkField_free; exact Hfree].
  erewrite bind_inr; [|apply updateUserById_found; simpl; exact Hu].
  eauto.
Qed.

Lemma heldByOther_anyone sel v ex us :
  heldByOther sel v ex us -> heldByOther sel v None us.
Proof.
  intros (k & u & Hk & Hv & _). exists k, u. split; [exact Hk|].
  split; [exact Hv | discriminate].
Qed.

(** An identifier held by a subject other than the acting one stops each
    of the three session routes that set one, before the write. *)
Lemma session_identifier_held_by_other libs sess w userId v :
  checkSessionHealth libs sess (verificationTimeout libs) = inr (Some userId) ->
  userId <> "" ->
  (heldByOther username v (Some userId) (users w) ->
   SessionProfile.patchUsername libs sess v w
   = (inl IdentifierExists, traced (OpLookupIdentifier "username" v) w)) /\
  (heldByOther primaryEmail v (Some userId) (users w) ->
   SessionProfile.patchEmail libs sess v w
   = (inl IdentifierExists, traced (OpLookupIdentifier "primaryEmail" v) w)) /\
  (heldByOther primaryPhone v (Some userId) (users w) ->
   SessionProfile.patchPhone libs sess v w
   = (inl IdentifierExists, traced (OpLookupIdentifier "primaryPhone" v) w)).
Proof.
  intros Hh Hs. split; [|split]; intros Hheld.
  - unfold SessionProfile.patchUsername.
    rewrite (bind_inr _ _ _ _ _ (healthyUser_ok _ _ _ _ Hh Hs)).
    apply bind_inl. unfold checkSignUpIdentifierCollision.
    rewrite checkIdentifierCollision_username. apply checkField_held. exact Hheld.
  - unfold SessionProfile.patchEmail.
    rewrite (bind_inr _ _ _ _ _ (healthyUser_ok _ _ _ _ Hh Hs)).
    apply bind_inl. unfold checkSignUpIdentifierCollision.
    rewrite checkIdentifierCollision_primaryEmail. apply checkField_held.
    eapply heldByOther_anyone. exact Hheld.
  - unfold SessionProfile.patchPhone.
    rewrite (bind_inr _ _ _ _ _ (healthyUser_ok _ _ _ _ Hh Hs)).
    apply bind_inl. unfold checkSignUpIdentifierCollision.
    rewrite checkIdentifierCollision_primaryPhone. apply checkField_held.
    eapply heldByOther_anyone. exact Hheld.
Qed.

(** The same for the username of [PATCH /profile]. *)
Lemma patchProfile_username_held_by_other libs auth body w v :
  UserScope_Profile ∈ ProfileApi.scopes auth ->
  ProfileApi.body_username body = Some v ->
  heldByOther username v (Some (ProfileApi.auth_id auth)) (users w) ->
  ProfileApi.patchProfile libs auth body w
  = (inl IdentifierExists, traced (OpLookupIdentifier "username" v) w).
Proof.
  intros Hscope Hb Hheld. unfold ProfileApi.patchProfile.
  rewrite bool_decide_eq_true_2 by exact Hscope.
  unfold assertThat. unfold bind at 1. simpl.
  apply bind_inl. rewrite Hb.
  rewrite checkIdentifierCollision_username. apply checkField_held. exact Hheld.
Qed.

(** In the sample store alice is the only holder of ["a@x.com"]. *)
Lemma alice_only_holder k u :
  users Sample.world !! k = Some u -> primaryEmail u = Some "a@x.com" -> k = "u1".
Proof.
  intros Hk He. unfold Sample.world in Hk. simpl in Hk.
  apply lookup_insert_Some in Hk as [[<- <-]|[N1 Hk]]; [reflexivity|].
  apply lookup_insert_Some in Hk as [[<- <-]|[N2 Hk]]; [discriminate He|].
  apply lookup_singleton_Some in Hk as [<- <-]. discriminate He.
Qed.

(** C3, evaluated: alice sets the email address she already holds, carol
    the phone number she already holds; both requests are rejected with
    [IdentifierExists] after the lookup, because the email and phone
    routes exclude no subject.  The username route, which excludes the
    acting subject, accepts alice's own username. *)
Theorem own_email_collides :
  primaryEmail Sample.alice = Some "a@x.com" /\
  SessionProfile.patchEmail Sample.libs Sample.aliceSession "a@x.com" Sample.world
  = (inl IdentifierExists,
     traced (OpLookupIdentifier "primaryEmail" "a@x.com") Sample.world) /\
  primaryPhone Sample.carol = Some "+15550100" /\
  SessionProfile.patchPhone Sample.libs Sample.carolSession "+15550100" Sample.world
  = (inl IdentifierExists,
     traced (OpLookupIdentifier "primaryPhone" "+15550100") Sample.world) /\
  username Sample.alice = Some "alice" /\
  fst (SessionProfile.patchUsername Sample.libs Sample.aliceSession "alice"
         Sample.world)
  = inr {| resp_status := 200;
           resp_body := Some (pickUserInfo Sample.libs Sample.alice) |}.
Proof.
  split; [reflexivity|]. split.
  { apply (patchEmail_own_email Sample.libs Sample.aliceSession Sample.world
             "u1" Sample.alice); [reflexivity | discriminate | reflexivity | reflexivity]. }
  split; [reflexivity|]. split; [vm_compute; reflexivity|].
  split; [reflexivity|]. vm_compute. reflexivity.
Qed.

(** ** Changing the password *)

(** C4 (as the code has it): on [PATCH /session/profile/password], when
    the acting user has a stored (non-empty) hash against which the new
    password verifies, the request fails with [user.same_password], 422,
    after one read of the user, and the stored users (so the hash and the
    encryption method) are unchanged. *)
Theorem patchPassword_same_password libs sess password w userId u hash :
  checkSessionHealth libs sess (verificationTimeout libs) = inr (Some userId) ->
  userId <> "" ->
  users w !! userId = Some u ->
  passwordEncrypted u = Some hash ->
  hash <> "" ->
  argon2Verify libs password hash = true ->
  SessionProfile.patchPassword libs sess password w
    = (inl user_same_password, traced (OpFind userId) w)
  /\ users (traced (OpFind userId) w) !! userId = Some u.
Proof.
  intros Hh Hs Hu Hp Hne Hv. split; [|exact Hu].
  unfold SessionProfile.patchPassword.
  rewrite (bind_inr _ _ _ _ _ (healthyUser_ok _ _ _ _ Hh Hs)).
  rewrite (bind_inr _ _ _ _ _ (findUserById_found _ _ _ Hu)).
  apply bind_inl. rewrite Hp. simpl. rewrite Hv.
  destruct (String.eqb_spec hash ""); [contradiction|]. reflexivity.
Qed.

Lemma patchPassword_same_password_witness :
  SessionProfile.patchPassword Sample.libs Sample.aliceSession "pw1" Sample.world
    = (inl user_same_password, traced (OpFind "u1") Sample.world)
  /\ users (traced (OpFind "u1") Sample.world) !! "u1" = Some Sample.alice.
Proof.
  apply (patchPassword_same_password Sample.libs Sample.aliceSession "pw1"
           Sample.world "u1" Sample.alice "$argon2i$s1$pw1");
    try reflexivity; discriminate.
Defined.

(** C4 (as stated) fails on [POST /profile/password]: alice's new
    password verifies against her stored hash, yet the request answers
    204 and the stored hash is overwritten. *)
Lemma postProfilePassword_accepts_same_password :
  let run := ProfileApi.postProfilePassword Sample.libs Sample.aliceAuth
               {| ProfileApi.password := "pw1";
                  ProfileApi.verificationRecordId := "r1" |} Sample.world in
  passwordEncrypted Sample.alice = Some "$argon2i$s1$pw1" /\
  argon2Verify Sample.libs "pw1" "$argon2i$s1$pw1" = true /\
  fst run = inr {| resp_status := 204; resp_body := None |} /\
  fst run <> inl user_same_password /\
  passwordEncrypted <$> (users (snd run) !! "u1") = Some (Some "$argon2i$s2$pw1").
Proof. vm_compute. repeat split; discriminate. Qed.

(** ** Change notifications *)

(** What [PATCH /profile] leaves behind when it succeeds. *)
Lemma patchProfile_inr libs auth body w resp w' :
  ProfileApi.patchProfile libs auth body w = (inr resp, w') ->
  exists u,
    let u' := applyUserSet (jsonbModeDefault libs) (ProfileApi.patchProfileSet (ProfileApi.scopes auth) body) u in
    users w !! ProfileApi.auth_id auth = Some u /\
    users w' = <[ProfileApi.auth_id auth := u']> (users w) /\
    dataHookContext w' = dataHookContext w ++ [("User.Data.Updated"%string, u')] /\
    resp = {| resp_status := 200;
              resp_body := Some (project (ProfileApi.scopes auth) u') |}.
Proof.
  unfold ProfileApi.patchProfile. intros H.
  apply bind_inr_inv in H as ([] & w0 & Ha & H).
  apply assertThat_inr in Ha as [_ ->].
  apply bind_inr_inv in H as ([] & w1 & Hc & H).
  assert (readOnly w w1) as (Hu1 & _ & _ & Hh1 & _).
  { eapply frames_run; [|exact Hc].
    destruct (ProfileApi.body_username body); frames_tac. }
  apply bind_inr_inv in H as (u' & w2 & Hup & H).
  apply updateUserById_inr in Hup as (u & Hu & -> & ->).
  apply bind_inr_inv in H as ([] & w3 & Hk & H).
  injection Hk as <-.
  apply bind_inr_inv in H as (b & w4 & Hg & H).
  injection H as <- <-.
  unfold getScopedProfile in Hg.
  apply bind_inr_inv in Hg as (u2 & w5 & Hf & Hg).
  apply findUserById_inr in Hf as [Hf ->]. injection Hg as <- <-.
  simpl in Hf. rewrite lookup_insert_eq in Hf. injection Hf as <-.
  exists u. simpl. rewrite Hu1, Hh1. rewrite <- Hu1. auto.
Qed.

(** C5 (as the code has it): a successful [PATCH /profile] or
    [POST /profile/password] appends exactly one [User.Data.Updated] entry
    to the data-hook context, carrying the user record as stored by the
    update; the session-profile operations never touch the data-hook
    context. *)
Theorem profile_api_emits_one_event libs :
  (forall auth body w resp w',
     ProfileApi.patchProfile libs auth body w = (inr resp, w') ->
     exists u', dataHookContext w' = dataHookContext w ++ [("User.Data.Updated"%string, u')]
                /\ users w' !! ProfileApi.auth_id auth = Some u') /\
  (forall auth body w resp w',
     ProfileApi.postProfilePassword libs auth body w = (inr resp, w') ->
     exists u', dataHookContext w' = dataHookContext w ++ [("User.Data.Updated"%string, u')]
                /\ users w' !! ProfileApi.auth_id auth = Some u') /\
  (forall op sess w,
     dataHookContext (snd (SessionProfile.handle libs op sess w)) = dataHookContext w).
Proof.
  split; [|split].
  - intros auth body w resp w' H.
    apply patchProfile_inr in H as (u & Hu & Hus & Hh & _).
    eexists. split; [exact Hh|]. rewrite Hus. apply lookup_insert_eq.
  - intros auth body w resp w' H.
    destruct (postProfilePassword_inr _ _ _ _ _ _ H) as (r & u & Hr & Ho & Hv & Hu).
    pose proof (postProfilePassword_run libs auth body w r u Hr Ho Hv Hu) as Hrun.
    simpl in Hrun. rewrite Hrun in H. injection H as _ <-. simpl.
    eexists. split; [reflexivity|]. apply lookup_insert_eq.
  - intros op sess w. apply session_handle_sameHooks.
Qed.

Lemma profile_api_emits_one_event_witness :
  exists u',
    dataHookContext (snd (ProfileApi.patchProfile Sample.libs Sample.aliceAuth Sample.renameBody
                            Sample.world))
    = dataHookContext Sample.world ++ [("User.Data.Updated"%string, u')]
    /\ users (snd (ProfileApi.patchProfile Sample.libs Sample.aliceAuth Sample.renameBody
                     Sample.world)) !! "u1" = Some u'.
Proof.
  apply (proj1 (profile_api_emits_one_event Sample.libs) Sample.aliceAuth
           Sample.renameBody Sample.world
           {| resp_status := 200;
              resp_body :=
                Some (project (ProfileApi.scopes Sample.aliceAuth)
                        (applyUserSet Merge
                           (ProfileApi.patchProfileSet
                              (ProfileApi.scopes Sample.aliceAuth) Sample.renameBody)
                           Sample.alice)) |}
           (snd (ProfileApi.patchProfile Sample.libs Sample.aliceAuth Sample.renameBody
                   Sample.world))).
  vm_compute. reflexivity.
Defined.

(** C5 (as stated) fails: [PATCH /session/profile] renames alice and
    answers 204 without any change notification. *)
Lemma session_patchProfile_emits_nothing :
  let run := SessionProfile.patchProfile Sample.libs Sample.aliceSession
               {| SessionProfile.body_name := Some (Some "Al");
                  SessionProfile.body_avatar := None;
                  SessionProfile.body_customData := None |} Sample.world in
  fst run = inr {| resp_status := 204; resp_body := None |} /\
  name <$> (users (snd run) !! "u1") = Some (Some "Al") /\
  name Sample.alice = Some "Alice" /\
  dataHookContext (snd run) = [].
Proof. vm_compute. repeat split. Qed.

(** ** Deleting what is not there *)

Lemma traced_users op w : users (traced op w) = users w.
Proof. reflexivity. Qed.

(** C6: for an acting user whose [primaryEmail] (respectively
    [primaryPhone]) is absent, delete-email (delete-phone) fails with
    [user.email_not_exists] ([user.phone_not_exists]), 422; for a user with
    no identity under [target], unlinking it fails with
    [user.identity_not_exists], 404.  In each case the handler stops after
    one read of the user: the world differs from the initial one by that
    trace entry only, so the stored user record is unchanged. *)
Theorem delete_absent_fails libs sess w userId u target :
  userId <> "" ->
  users w !! userId = Some u ->
  (checkSessionHealth libs sess (verificationTimeout libs) = inr (Some userId) ->
   primaryEmail u = None ->
   SessionProfile.deleteEmail libs sess w
     = (inl user_email_not_exists, traced (OpFind userId) w)) /\
  (checkSessionHealth libs sess (verificationTimeout libs) = inr (Some userId) ->
   primaryPhone u = None ->
   SessionProfile.deletePhone libs sess w
     = (inl user_phone_not_exists, traced (OpFind userId) w)) /\
  (accountId sess = Some userId ->
   identities u !! target = None ->
   SessionProfile.deleteIdentity sess target w
     = (inl user_identity_not_exists, traced (OpFind userId) w)) /\
  users (traced (OpFind userId) w) !! userId = Some u.
Proof.
  intros Hs Hu. split; [|split; [|split]].
  - intros Hh He. unfold SessionProfile.deleteEmail.
    rewrite (bind_inr _ _ _ _ _ (healthyUser_ok _ _ _ _ Hh Hs)).
    rewrite (bind_inr _ _ _ _ _ (findUserById_found _ _ _ Hu)).
    apply bind_inl. rewrite He. reflexivity.
  - intros Hh He. unfold SessionProfile.deletePhone.
    rewrite (bind_inr _ _ _ _ _ (healthyUser_ok _ _ _ _ Hh Hs)).
    rewrite (bind_inr _ _ _ _ _ (findUserById_found _ _ _ Hu)).
    apply bind_inl. rewrite He. reflexivity.
  - intros Ha Hi. unfold SessionProfile.deleteIdentity, SessionProfile.sessionUser.
    rewrite Ha.
    rewrite (bind_inr _ _ _ _ _ (assertTruthy_Some _ _ _ Hs)).
    rewrite (bind_inr _ _ _ _ _ (findUserById_found _ _ _ Hu)).
    apply bind_inl. rewrite Hi. reflexivity.
  - exact Hu.
Qed.

Lemma delete_absent_fails_witness :
  SessionProfile.deleteEmail Sample.libs Sample.bobSession Sample.world
    = (inl user_email_not_exists, traced (OpFind "u2") Sample.world) /\
  SessionProfile.deletePhone Sample.libs Sample.bobSession Sample.world
    = (inl user_phone_not_exists, traced (OpFind "u2") Sample.world) /\
  SessionProfile.deleteIdentity Sample.bobSession "github" Sample.world
    = (inl user_identity_not_exists, traced (OpFind "u2") Sample.world) /\
  users (traced (OpFind "u2") Sample.world) !! "u2" = Some Sample.bob.
Proof.
  assert ("u2" <> ""%string) as Hne by discriminate.
  destruct (delete_absent_fails Sample.libs Sample.bobSession Sample.world "u2"
              Sample.bob "github" Hne eq_refl) as (H1 & H2 & H3 & H4).
  split; [|split; [|split]].
  - apply H1; reflexivity.
  - apply H2; reflexivity.
  - apply H3; reflexivity.
  - exact H4.
Defined.

(** ** Linking an identity *)

Lemma merge_inserted {V} (m : gmap string V) k v : <[k := v]> m ∪ m = <[k := v]> m.
Proof. rewrite <- insert_union_l, map_union_idemp. reflexivity. Qed.

(** ** The address and the address scope *)



(** * Further properties of the routes *)

(** ** Case analysis of the steps *)

Lemma bind_assertThat_true {B} e (k : unit -> M B) w :
  bind (assertThat true e) k w = k tt w.
Proof. reflexivity. Qed.

Lemma bind_assertThat_false {B} e (k : unit -> M B) w :
  bind (assertThat false e) k w = (inl e, w).
Proof. reflexivity. Qed.

Lemma bind_ret {A B} (a : A) (k : A -> M B) w : bind (ret a) k w = k a w.
Proof. reflexivity. Qed.

Lemma console_log_run args w : console_log args w = (inr tt, logged args w).
Proof. reflexivity. Qed.

Lemma sessionUser_cases sess w :
  (truthy (accountId sess) = false /\
   SessionProfile.sessionUser sess w = (inl auth_unauthorized, w)) \/
  (exists userId, accountId sess = Some userId /\ userId <> "" /\
                  SessionProfile.sessionUser sess w = (inr userId, w)).
Proof.
  unfold SessionProfile.sessionUser.
  destruct (accountId sess) as [s|]; simpl.
  - destruct (String.eqb_spec s "") as [->|Hne].
    + left. split; reflexivity.
    + right. exists s. split; [reflexivity|]. split; [exact Hne|].
      destruct (String.eqb_spec s ""); [contradiction | reflexivity].
  - left. split; reflexivity.
Qed.

Lemma healthyUser_cases libs sess w :
  (exists e, SessionProfile.healthyUser libs sess w = (inl e, w)) \/
  (exists userId,
     checkSessionHealth libs sess (verificationTimeout libs) = inr (Some userId) /\
     userId <> "" /\
     SessionProfile.healthyUser libs sess w = (inr userId, w)).
Proof.
  destruct (SessionProfile.healthyUser libs sess w) as [[e|userId] w1] eqn:H.
  - left. exists e. apply healthyUser_world in H as ->. reflexivity.
  - right. exists userId. apply healthyUser_inr in H as (Hc & Hs & ->). auto.
Qed.

Lemma findUserById_cases userId w :
  (users w !! userId = None /\
   findUserById userId w = (inl entity_not_found, traced (OpFind userId) w)) \/
  (exists u, users w !! userId = Some u /\
             findUserById userId w = (inr u, traced (OpFind userId) w)).
Proof.
  destruct (users w !! userId) as [u|] eqn:Hu.
  - right. exists u. split; [reflexivity|]. apply findUserById_found. exact Hu.
  - left. split; [reflexivity|].
    unfold findUserById, bind, logStore, getWorld. simpl. rewrite Hu. reflexivity.
Qed.

Lemma updateUserById_missing userId s mode w :
  users w !! userId = None ->
  updateUserById userId s mode w = (inl entity_not_found, traced (OpUpdate userId) w).
Proof.
  intros Hu. unfold updateUserById, bind, logStore, getWorld. simpl.
  rewrite Hu. reflexivity.
Qed.

Lemma deleteUserIdentity_found userId target u w :
  users w !! userId = Some u ->
  deleteUserIdentity userId target w =
    (inr (removeIdentity target u),
     stored userId (removeIdentity target u)
       (traced (OpDeleteIdentity userId target) w)).
Proof.
  intros Hu. unfold deleteUserIdentity, bind, logStore, getWorld. simpl.
  rewrite Hu. reflexivity.
Qed.

Lemma checkField_cases f sel v ex w :
  (heldByOther sel v ex (users w) /\
   checkField f sel (Some v) ex w
   = (inl IdentifierExists, traced (OpLookupIdentifier f v) w)) \/
  (~ heldByOther sel v ex (users w) /\
   checkField f sel (Some v) ex w = (inr tt, traced (OpLookupIdentifier f v) w)).
Proof.
  destruct (decide (heldByOther sel v ex (users w))) as [H|H].
  - left. split; [exact H|]. apply checkField_held. exact H.
  - right. split; [exact H|]. apply checkField_free. exact H.
Qed.

Lemma not_heldByOther_anyone sel v ex us :
  ~ heldByOther sel v None us -> ~ heldByOther sel v ex us.
Proof. intros H Hh. apply H. eapply heldByOther_anyone. exact Hh. Qed.

Ltac run_bind H := first [rewrite (bind_inr _ _ _ _ _ H) | rewrite (bind_inl _ _ _ _ _ H)].

(** ** What a session operation writes *)

Ltac auth_healthy libs sess w userId Hh Hs :=
  let e := fresh "e" in
  let He := fresh "He" in
  destruct (healthyUser_cases libs sess w) as [(e & He)|(userId & Hh & Hs & He)];
  run_bind He; [left; reflexivity|].

Ltac auth_session sess w userId Ha Hs :=
  let Hf := fresh "Hf" in
  let He := fresh "He" in
  destruct (sessionUser_cases sess w) as [(Hf & He)|(userId & Ha & Hs & He)];
  run_bind He; [left; reflexivity|].

Ltac find_user userId w u Hu :=
  let Hn := fresh "Hn" in
  let Hf := fresh "Hf" in
  destruct (findUserById_cases userId w) as [(Hn & Hf)|(u & Hu & Hf)];
  run_bind Hf; [left; reflexivity|].

Ltac update_user userId u Hu :=
  erewrite bind_inr; [|apply updateUserById_found; exact Hu].

Ltac update_missing Hu :=
  erewrite bind_inl; [|apply updateUserById_missing; exact Hu].

Ltac columns_kept :=
  unfold columnsKept; simpl;
  repeat match goal with
         | |- _ /\ _ => split
         | |- _ -> _ => intros ?
         end;
  first [reflexivity | discriminate].

Ltac steps_kept := split; [left; reflexivity | split; left; reflexivity].

(** Whatever a session operation answers, the stored users are as before
    or differ by one write to the record of the acting subject, made by a
    request that succeeded, in which each identifier column is kept,
    cleared, or set to a value no other user holds. *)
Lemma session_handle_users libs op sess w :
  users (snd (SessionProfile.handle libs op sess w)) = users w \/
  exists resp userId u u',
    fst (SessionProfile.handle libs op sess w) = inr resp /\
    SessionProfile.subjectOf libs op sess = inr (Some userId) /\
    userId <> "" /\
    users w !! userId = Some u /\
    users (snd (SessionProfile.handle libs op sess w)) = <[userId := u']> (users w) /\
    identifierSteps userId (users w) u u' /\
    columnsKept op u u'.
Proof.
  destruct op; simpl; unfold_session.
  - (* GetProfile *)
    auth_session sess w userId Ha Hs. find_user userId w u Hu. left. reflexivity.
  - (* PatchProfile *)
    auth_session sess w userId Ha Hs.
    destruct (users w !! userId) as [u|] eqn:Hu.
    + update_user userId u Hu. right. do 4 eexists.
      split; [reflexivity|]. split; [f_equal; exact Ha|]. split; [exact Hs|].
      split; [exact Hu|]. split; [reflexivity|]. split; [steps_kept | columns_kept].
    + update_missing Hu. left. reflexivity.
  - (* PatchUsername *)
    auth_healthy libs sess w userId Hh Hs.
    unfold checkSignUpIdentifierCollision.
    destruct (checkField_cases "username" username username0 (Some userId) w)
      as [(Hheld & Hc)|(Hfree & Hc)];
      rewrite <- checkIdentifierCollision_username in Hc; run_bind Hc;
      [left; reflexivity|].
    destruct (users w !! userId) as [u|] eqn:Hu.
    + update_user userId u Hu. right. do 4 eexists.
      split; [reflexivity|]. split; [exact Hh|]. split; [exact Hs|].
      split; [exact Hu|]. split; [reflexivity|]. split; [|columns_kept].
      split; [|split; left; reflexivity].
      right. right. exists username0. split; [reflexivity | exact Hfree].
    + update_missing Hu. left. reflexivity.
  - (* PatchPassword *)
    auth_healthy libs sess w userId Hh Hs. find_user userId w u Hu.
    destruct (negb (truthy (passwordEncrypted u))
              || negb (argon2Verify libs password (default "" (passwordEncrypted u))));
      [rewrite bind_assertThat_true | rewrite bind_assertThat_false; left; reflexivity].
    destruct (encryptUserPassword libs password) as [pe pm].
    update_user userId u Hu. right. do 4 eexists.
    split; [reflexivity|]. split; [exact Hh|]. split; [exact Hs|].
    split; [exact Hu|]. split; [reflexivity|]. split; [steps_kept | columns_kept].
  - (* PatchEmail *)
    auth_healthy libs sess w userId Hh Hs.
    unfold checkSignUpIdentifierCollision.
    destruct (checkField_cases "primaryEmail" primaryEmail primaryEmail0 None w)
      as [(Hheld & Hc)|(Hfree & Hc)];
      rewrite <- checkIdentifierCollision_primaryEmail in Hc; run_bind Hc;
      [left; reflexivity|].
    destruct (users w !! userId) as [u|] eqn:Hu.
    + update_user userId u Hu. right. do 4 eexists.
      split; [reflexivity|]. split; [exact Hh|]. split; [exact Hs|].
      split; [exact Hu|]. split; [reflexivity|]. split; [|columns_kept].
      split; [left; reflexivity|]. split; [|left; reflexivity].
      right. right. exists primaryEmail0. split; [reflexivity|].
      apply not_heldByOther_anyone. exact Hfree.
    + update_missing Hu. left. reflexivity.
  - (* DeleteEmail *)
    auth_healthy libs sess w userId Hh Hs. find_user userId w u Hu.
    destruct (truthy (primaryEmail u));
      [rewrite bind_assertThat_true | rewrite bind_assertThat_false; left; reflexivity].
    update_user userId u Hu. right. do 4 eexists.
    split; [reflexivity|]. split; [exact Hh|]. split; [exact Hs|].
    split; [exact Hu|]. split; [reflexivity|]. split; [|columns_kept].
    split; [left; reflexivity|]. split; [right; left; reflexivity | left; reflexivity].
  - (* PatchPhone *)
    auth_healthy libs sess w userId Hh Hs.
    unfold checkSignUpIdentifierCollision.
    destruct (checkField_cases "primaryPhone" primaryPhone primaryPhone0 None w)
      as [(Hheld & Hc)|(Hfree & Hc)];
      rewrite <- checkIdentifierCollision_primaryPhone in Hc; run_bind Hc;
      [left; reflexivity|].
    destruct (users w !! userId) as [u|] eqn:Hu.
    + update_user userId u Hu. right. do 4 eexists.
      split; [reflexivity|]. split; [exact Hh|]. split; [exact Hs|].
      split; [exact Hu|]. split; [reflexivity|]. split; [|columns_kept].
      split; [left; reflexivity|]. split; [left; reflexivity|].
      right. right. exists primaryPhone0. split; [reflexivity|].
      apply not_heldByOther_anyone. exact Hfree.
    + update_missing Hu. left. reflexivity.
  - (* DeletePhone *)
    auth_healthy libs sess w userId Hh Hs. find_user userId w u Hu.
    destruct (truthy (primaryPhone u));
      [rewrite bind_assertThat_true | rewrite bind_assertThat_false; left; reflexivity].
    update_user userId u Hu. right. do 4 eexists.
    split; [reflexivity|]. split; [exact Hh|]. split; [exact Hs|].
    split; [exact Hu|]. split; [reflexivity|]. split; [|columns_kept].
    split; [left; reflexivity|]. split; [left; reflexivity | right; left; reflexivity].
  - (* PatchIdentities *)
    auth_healthy libs sess w userId Hh Hs.
    destruct (getLogtoConnectorById libs (SessionProfile.connectorId body))
      as [e|target]; [left; reflexivity|].
    destruct (getUserInfoByAuthCode libs (SessionProfile.connectorId body)
                (SessionProfile.data body)) as [e|info]; [left; reflexivity|].
    cbn [liftResult]. rewrite !bind_ret.
    find_user userId w u Hu.
    update_user userId u Hu. right. do 4 eexists.
    split; [reflexivity|]. split; [exact Hh|]. split; [exact Hs|].
    split; [exact Hu|]. split; [reflexivity|]. split; [steps_kept | columns_kept].
  - (* DeleteIdentity *)
    auth_session sess w userId Ha Hs. find_user userId w u Hu.
    destruct (bool_decide (is_Some (identities u !! target)));
      [rewrite bind_assertThat_true | rewrite bind_assertThat_false; left; reflexivity].
    rewrite (bind_inr _ _ _ _ _ (console_log_run _ _)).
    erewrite bind_inr; [|apply deleteUserIdentity_found; exact Hu].
    right. do 4 eexists.
    split; [reflexivity|]. split; [f_equal; exact Ha|]. split; [exact Hs|].
    split; [exact Hu|]. split; [reflexivity|]. split; [steps_kept | columns_kept].
Qed.

(** ** What a request to the profile API writes *)

Lemma appendDataHookContext_run ev u w :
  appendDataHookContext ev u w = (inr tt, hooked ev u w).
Proof. reflexivity. Qed.

Lemma getScopedProfile_found scs userId u w :
  users w !! userId = Some u ->
  getScopedProfile scs userId w = (inr (project scs u), traced (OpFind userId) w).
Proof.
  intros Hu. unfold getScopedProfile.
  rewrite (bind_inr _ _ _ _ _ (findUserById_found _ _ _ Hu)). reflexivity.
Qed.

Lemma patchProfile_commit libs auth body w w0 :
  users w0 = users w -> dataHookContext w0 = dataHookContext w ->
  (forall u, users w !! ProfileApi.auth_id auth = Some u ->
             identifierStep username (ProfileApi.auth_id auth) (users w) u
               (applyUserSet (jsonbModeDefault libs)
                  (ProfileApi.patchProfileSet (ProfileApi.scopes auth) body) u)) ->
  patchProfileOutcome libs auth body w
    ((updatedUser <- updateUserById (ProfileApi.auth_id auth)
                       (ProfileApi.patchProfileSet (ProfileApi.scopes auth) body)
                       (jsonbModeDefault libs) ;;
      appendDataHookContext "User.Data.Updated" updatedUser ;;;
      b <- getScopedProfile (ProfileApi.scopes auth) (ProfileApi.auth_id auth) ;;
      ret {| resp_status := 200; resp_body := Some b |}) w0).
Proof.
  intros Hus Hhk Hstep. unfold patchProfileOutcome.
  destruct (users w !! ProfileApi.auth_id auth) as [u|] eqn:Hu.
  - assert (users w0 !! ProfileApi.auth_id auth = Some u) as Hu0 by (rewrite Hus; exact Hu).
    erewrite bind_inr; [|apply updateUserById_found; exact Hu0].
    rewrite (bind_inr _ _ _ _ _ (appendDataHookContext_run _ _ _)).
    erewrite bind_inr;
      [|apply getScopedProfile_found; simpl; apply lookup_insert_eq].
    right. do 2 eexists. split; [reflexivity|]. split; [reflexivity|].
    split; [reflexivity|]. simpl. rewrite Hus, Hhk.
    split; [reflexivity|]. split; [reflexivity|].
    split; [apply Hstep; reflexivity | split; left; reflexivity].
  - assert (users w0 !! ProfileApi.auth_id auth = None) as Hu0 by (rewrite Hus; exact Hu).
    erewrite bind_inl; [|apply updateUserById_missing; exact Hu0].
    left. eexists. split; [reflexivity|]. simpl. auto.
Qed.

(** Whatever [PATCH /profile] answers, the users and the data-hook
    context are as before, or the request succeeded with one write to the
    record of the acting subject and one [User.Data.Updated] entry that
    carries the written record. *)
Lemma api_patchProfile_effect libs auth body w :
  patchProfileOutcome libs auth body w (ProfileApi.patchProfile libs auth body w).
Proof.
  unfold ProfileApi.patchProfile. simpl.
  destruct (bool_decide (UserScope_Profile ∈ ProfileApi.scopes auth));
    [rewrite bind_assertThat_true | rewrite bind_assertThat_false; left; eauto].
  destruct (ProfileApi.body_username body) as [v|] eqn:Hb.
  - destruct (checkField_cases "username" username v (Some (ProfileApi.auth_id auth)) w)
      as [(Hheld & Hc)|(Hfree & Hc)];
      rewrite <- checkIdentifierCollision_username in Hc; run_bind Hc.
    + left. eauto.
    + apply patchProfile_commit; [reflexivity | reflexivity |].
      intros u _. right. right. exists v. split; [|exact Hfree].
      simpl. rewrite Hb. reflexivity.
  - rewrite bind_ret. apply patchProfile_commit; [reflexivity | reflexivity |].
    intros u _. left. simpl. rewrite Hb. reflexivity.
Qed.

(** Whatever [POST /profile/password] answers, the users and the
    data-hook context are as before, or the request succeeded with one
    write of the two password columns of the acting subject and one
    [User.Data.Updated] entry that carries the written record. *)
Lemma api_postProfilePassword_effect libs auth body w :
  let run := ProfileApi.postProfilePassword libs auth body w in
  (exists e, fst run = inl e /\ users (snd run) = users w /\
             dataHookContext (snd run) = dataHookContext w) \/
  exists u u',
    fst run = inr {| resp_status := 204; resp_body := None |} /\
    resolvesVerified (ProfileApi.auth_id auth) (ProfileApi.verificationRecordId body) w /\
    users w !! ProfileApi.auth_id auth = Some u /\
    u' = applyUserSet (jsonbModeDefault libs)
           (passwordSet libs (ProfileApi.password body)) u /\
    users (snd run) = <[ProfileApi.auth_id auth := u']> (users w) /\
    dataHookContext (snd run)
      = dataHookContext w ++ [("User.Data.Updated"%string, u')].
Proof.
  simpl.
  destruct (ProfileApi.postProfilePassword libs auth body w) as [[e|resp] w'] eqn:H.
  - left. exists e. split; [reflexivity|]. simpl.
    unfold ProfileApi.postProfilePassword in H.
    destruct (buildUserVerificationRecordById (ProfileApi.auth_id auth)
                (ProfileApi.verificationRecordId body) w) as [[e1|r] w1] eqn:Hb.
    + rewrite (bind_inl _ _ _ _ _ Hb) in H. injection H as _ <-.
      unfold buildUserVerificationRecordById, bind, getWorld in Hb. simpl in Hb.
      destruct (verificationRecords w !! ProfileApi.verificationRecordId body) as [r|];
        [destruct (String.eqb (record_userId r) (ProfileApi.auth_id auth))|];
        injection Hb as _ <-; auto.
    + rewrite (bind_inr _ _ _ _ _ Hb) in H.
      apply buildUserVerificationRecordById_inr in Hb as (_ & _ & ->).
      unfold bind at 1 in H. simpl in H.
      destruct (isVerified (now w) r);
        [rewrite bind_assertThat_true in H
        |rewrite bind_assertThat_false in H; injection H as _ <-; auto].
      destruct (encryptUserPassword libs (ProfileApi.password body)) as [pe pm].
      destruct (users w !! ProfileApi.auth_id auth) as [u|] eqn:Hu.
      * erewrite bind_inr in H; [|apply updateUserById_found; exact Hu].
        rewrite (bind_inr _ _ _ _ _ (appendDataHookContext_run _ _ _)) in H.
        discriminate H.
      * erewrite bind_inl in H; [|apply updateUserById_missing; exact Hu].
        injection H as _ <-. auto.
  - right.
    destruct (postProfilePassword_inr _ _ _ _ _ _ H) as (r & u & Hr & Ho & Hv & Hu).
    pose proof (postProfilePassword_run libs auth body w r u Hr Ho Hv Hu) as Hrun.
    simpl in Hrun. rewrite Hrun in H. injection H as <- <-.
    do 2 eexists. split; [reflexivity|]. split.
    { exists r. apply isVerified_true in Hv. tauto. }
    split; [exact Hu|]. split; [reflexivity|]. split; reflexivity.
Qed.

(** ** Unique identifiers are kept unique *)

Lemma uniqueBy_insert sel (us : gmap string User) k u u' :
  uniqueBy sel us -> us !! k = Some u -> identifierStep sel k us u u' ->
  uniqueBy sel (<[k := u']> us).
Proof.
  intros Huniq Hk Hstep k1 k2 u1 u2 v H1 H2 S1 S2.
  assert (forall j uj, j <> k -> us !! j = Some uj -> sel uj = Some v ->
                       sel u' = Some v -> False) as Hclash.
  { intros j uj Hj Huj Sj S'.
    destruct Hstep as [Hsame|[Hnone|(v' & Hv' & Hfree)]].
    - rewrite Hsame in S'. apply Hj. exact (Huniq j k uj u v Huj Hk Sj S').
    - congruence.
    - apply Hfree. exists j, uj. split; [exact Huj|]. split; [congruence|].
      intros [= ->]. contradiction. }
  apply lookup_insert_Some in H1 as [[<- <-]|[N1 H1]];
    apply lookup_insert_Some in H2 as [[<- <-]|[N2 H2]].
  - reflexivity.
  - exfalso. exact (Hclash k2 u2 (not_eq_sym N2) H2 S2 S1).
  - exfalso. exact (Hclash k1 u1 (not_eq_sym N1) H1 S1 S2).
  - exact (Huniq k1 k2 u1 u2 v H1 H2 S1 S2).
Qed.

Lemma uniqueIdentifiers_insert (us : gmap string User) k u u' :
  uniqueIdentifiers us -> us !! k = Some u -> identifierSteps k us u u' ->
  uniqueIdentifiers (<[k := u']> us).
Proof.
  intros (U1 & U2 & U3) Hk (S1 & S2 & S3).
  split; [|split]; eapply uniqueBy_insert; eassumption.
Qed.

Ltac sample_lookup H :=
  repeat (apply lookup_insert_Some in H as [[<- <-]|[? H]]);
  try (apply lookup_singleton_Some in H as [<- <-]).

Lemma sample_world_unique : uniqueIdentifiers (users Sample.world).
Proof.
  repeat split; intros k1 k2 u1 u2 v H1 H2 S1 S2;
    unfold Sample.world in H1, H2; simpl in H1, H2;
    sample_lookup H1; sample_lookup H2;
    first [reflexivity | simpl in S1, S2; congruence].
Qed.

(** X1: a session operation that starts with unique usernames, primary
    emails and primary phones leaves them unique, whatever it answers. *)
Theorem session_keeps_identifiers_unique libs op sess w :
  uniqueIdentifiers (users w) ->
  uniqueIdentifiers (users (snd (SessionProfile.handle libs op sess w))).
Proof.
  intros Hu.
  destruct (session_handle_users libs op sess w)
    as [->|(resp & userId & u & u' & _ & _ & _ & Hk & -> & Hsteps & _)];
    [exact Hu|].
  eapply uniqueIdentifiers_insert; eassumption.
Qed.

Lemma session_keeps_identifiers_unique_witness :
  uniqueIdentifiers
    (users (snd (SessionProfile.handle Sample.libs
                   (SessionProfile.PatchEmail "new@x.com") Sample.aliceSession
                   Sample.world))).
Proof.
  apply (session_keeps_identifiers_unique Sample.libs
           (SessionProfile.PatchEmail "new@x.com") Sample.aliceSession Sample.world).
  exact sample_world_unique.
Defined.

(** X2: the same for the two writing routes of the profile API. *)
Theorem api_keeps_identifiers_unique libs auth w :
  uniqueIdentifiers (users w) ->
  (forall body,
     uniqueIdentifiers (users (snd (ProfileApi.patchProfile libs auth body w)))) /\
  (forall body,
     uniqueIdentifiers (users (snd (ProfileApi.postProfilePassword libs auth body w)))).
Proof.
  intros Hu. split; intros body.
  - destruct (api_patchProfile_effect libs auth body w)
      as [(e & _ & -> & _)|(u & u' & _ & Hk & _ & -> & _ & Hsteps)]; [exact Hu|].
    eapply uniqueIdentifiers_insert; eassumption.
  - destruct (api_postProfilePassword_effect libs auth body w)
      as [(e & _ & -> & _)|(u & u' & _ & _ & Hk & -> & -> & _)]; [exact Hu|].
    eapply uniqueIdentifiers_insert; [exact Hu | exact Hk |].
    split; [left; reflexivity | split; left; reflexivity].
Qed.

Lemma api_keeps_identifiers_unique_witness :
  uniqueIdentifiers
    (users (snd (ProfileApi.patchProfile Sample.libs Sample.aliceAuth
                   {| ProfileApi.body_name := None; ProfileApi.body_avatar := None;
                      ProfileApi.body_username := Some "alicia";
                      ProfileApi.body_profile := None |} Sample.world))).
Proof.
  apply (proj1 (api_keeps_identifiers_unique Sample.libs Sample.aliceAuth Sample.world
                  sample_world_unique)).
Defined.

(** ** A failed request writes nothing *)

(** X3: when a session operation answers with an error, the stored users
    and the data-hook context are as before. *)
Theorem session_failure_writes_nothing libs op sess w e :
  fst (SessionProfile.handle libs op sess w) = inl e ->
  users (snd (SessionProfile.handle libs op sess w)) = users w /\
  dataHookContext (snd (SessionProfile.handle libs op sess w)) = dataHookContext w.
Proof.
  intros He. split; [|apply session_handle_sameHooks].
  destruct (session_handle_users libs op sess w)
    as [H|(resp & userId & u & u' & Hr & _)]; [exact H|].
  rewrite Hr in He. discriminate He.
Qed.

Lemma session_failure_writes_nothing_witness :
  users (snd (SessionProfile.handle Sample.libs (SessionProfile.PatchEmail "a@x.com")
                Sample.bobSession Sample.world)) = users Sample.world /\
  dataHookContext
    (snd (SessionProfile.handle Sample.libs (SessionProfile.PatchEmail "a@x.com")
            Sample.bobSession Sample.world)) = dataHookContext Sample.world.
Proof.
  apply (session_failure_writes_nothing Sample.libs (SessionProfile.PatchEmail "a@x.com")
           Sample.bobSession Sample.world IdentifierExists).
  vm_compute. reflexivity.
Defined.

(** X4: when [PATCH /profile] or [POST /profile/password] answers with an
    error, the stored users are as before and no change notification was
    appended. *)
Theorem api_failure_writes_nothing libs auth w e :
  (forall body,
     fst (ProfileApi.patchProfile libs auth body w) = inl e ->
     users (snd (ProfileApi.patchProfile libs auth body w)) = users w /\
     dataHookContext (snd (ProfileApi.patchProfile libs auth body w))
       = dataHookContext w) /\
  (forall body,
     fst (ProfileApi.postProfilePassword libs auth body w) = inl e ->
     users (snd (ProfileApi.postProfilePassword libs auth body w)) = users w /\
     dataHookContext (snd (ProfileApi.postProfilePassword libs auth body w))
       = dataHookContext w).
Proof.
  split; intros body He.
  - destruct (api_patchProfile_effect libs auth body w)
      as [(e' & _ & H1 & H2)|(u & u' & Hr & _)]; [auto|].
    rewrite Hr in He. discriminate He.
  - destruct (api_postProfilePassword_effect libs auth body w)
      as [(e' & _ & H1 & H2)|(u & u' & Hr & _)]; [auto|].
    rewrite Hr in He. discriminate He.
Qed.

Lemma api_failure_writes_nothing_witness :
  users (snd (ProfileApi.patchProfile Sample.libs Sample.aliceAuth
                {| ProfileApi.body_name := Some (Some "Al");
                   ProfileApi.body_avatar := None;
                   ProfileApi.body_username := Some "bob";
                   ProfileApi.body_profile := None |} Sample.world))
  = users Sample.world.
Proof.
  apply (proj1 (api_failure_writes_nothing Sample.libs Sample.aliceAuth Sample.world
                  IdentifierExists)).
  vm_compute. reflexivity.
Defined.

(** ** Only the acting subject's record is written *)

(** X5: a session operation leaves the record of every user other than
    the subject its handler holds exactly as it was (and creates none). *)
Theorem session_writes_only_subject libs op sess w k :
  SessionProfile.subjectOf libs op sess <> inr (Some k) ->
  users (snd (SessionProfile.handle libs op sess w)) !! k = users w !! k.
Proof.
  intros Hk.
  destruct (session_handle_users libs op sess w)
    as [->|(resp & userId & u & u' & _ & Hs & _ & _ & -> & _)]; [reflexivity|].
  apply lookup_insert_ne. intros ->. contradiction.
Qed.

Lemma session_writes_only_subject_witness :
  users (snd (SessionProfile.handle Sample.libs (SessionProfile.PatchEmail "new@x.com")
                Sample.aliceSession Sample.world)) !! "u2"
  = users Sample.world !! "u2".
Proof.
  apply (session_writes_only_subject Sample.libs (SessionProfile.PatchEmail "new@x.com")
           Sample.aliceSession Sample.world "u2").
  discriminate.
Defined.

(** X6: the routes of the profile API leave the record of every user
    other than [ctx.auth.id] exactly as it was. *)
Theorem api_writes_only_subject libs auth w k :
  k <> ProfileApi.auth_id auth ->
  (forall body,
     users (snd (ProfileApi.patchProfile libs auth body w)) !! k = users w !! k) /\
  (forall body,
     users (snd (ProfileApi.postProfilePassword libs auth body w)) !! k
     = users w !! k) /\
  users (snd (ProfileApi.getProfile auth w)) !! k = users w !! k.
Proof.
  intros Hk. split; [|split].
  - intros body.
    destruct (api_patchProfile_effect libs auth body w)
      as [(e & _ & -> & _)|(u & u' & _ & _ & _ & -> & _)]; [reflexivity|].
    apply lookup_insert_ne. congruence.
  - intros body.
    destruct (api_postProfilePassword_effect libs auth body w)
      as [(e & _ & -> & _)|(u & u' & _ & _ & _ & _ & -> & _)]; [reflexivity|].
    apply lookup_insert_ne. congruence.
  - destruct (getScopedProfile_readOnly (ProfileApi.scopes auth) (ProfileApi.auth_id auth) w)
      as (Hu & _).
    unfold ProfileApi.getProfile.
    assert (users (snd ((b <- getScopedProfile (ProfileApi.scopes auth)
                               (ProfileApi.auth_id auth) ;;
                        ret {| resp_status := 200; resp_body := Some b |}) w))
            = users (snd (getScopedProfile (ProfileApi.scopes auth)
                            (ProfileApi.auth_id auth) w))) as ->.
    { unfold bind. destruct (getScopedProfile _ _ w) as [[e|b] w1]; reflexivity. }
    rewrite Hu. reflexivity.
Qed.

Lemma api_writes_only_subject_witness :
  users (snd (ProfileApi.postProfilePassword Sample.libs Sample.aliceAuth
                {| ProfileApi.password := "pw2";
                   ProfileApi.verificationRecordId := "r1" |} Sample.world)) !! "u2"
  = users Sample.world !! "u2".
Proof.
  apply (proj1 (proj2 (api_writes_only_subject Sample.libs Sample.aliceAuth
                         Sample.world "u2" ltac:(discriminate)))).
Defined.

(** ** Which columns a route can change *)

(** X7: across the session routes, only [PATCH .../password] changes a
    stored password hash or its method, only the two identity routes
    change stored identities, only [PATCH /session/profile] changes name,
    avatar and custom data, and none changes the profile column or a user
    id; this holds for every stored user and whatever the answer is. *)
Theorem session_column_frame libs op sess w k :
  (user_id <$> users (snd (SessionProfile.handle libs op sess w)) !! k)
    = (user_id <$> users w !! k) /\
  (profile <$> users (snd (SessionProfile.handle libs op sess w)) !! k)
    = (profile <$> users w !! k) /\
  (changesPassword op = false ->
   (passwordEncrypted <$> users (snd (SessionProfile.handle libs op sess w)) !! k)
     = (passwordEncrypted <$> users w !! k) /\
   (passwordEncryptionMethod <$> users (snd (SessionProfile.handle libs op sess w)) !! k)
     = (passwordEncryptionMethod <$> users w !! k)) /\
  (changesIdentities op = false ->
   (identities <$> users (snd (SessionProfile.handle libs op sess w)) !! k)
     = (identities <$> users w !! k)) /\
  (changesDisplay op = false ->
   (name <$> users (snd (SessionProfile.handle libs op sess w)) !! k)
     = (name <$> users w !! k) /\
   (avatar <$> users (snd (SessionProfile.handle libs op sess w)) !! k)
     = (avatar <$> users w !! k) /\
   (customData <$> users (snd (SessionProfile.handle libs op sess w)) !! k)
     = (customData <$> users w !! k)).
Proof.
  destruct (session_handle_users libs op sess w)
    as [->|(resp & userId & u & u' & _ & _ & _ & Hu & -> & _ & Hid & Hpr & Hpw & Hids & Hd)].
  { repeat split; reflexivity. }
  destruct (decide (k = userId)) as [->|Hne].
  - rewrite lookup_insert_eq, Hu. simpl.
    split; [congruence|]. split; [congruence|].
    split; [intros H; destruct (Hpw H); split; congruence|].
    split; [intros H; rewrite (Hids H); reflexivity|].
    intros H; destruct (Hd H) as (? & ? & ?); repeat split; congruence.
  - rewrite lookup_insert_ne by congruence. repeat split; reflexivity.
Qed.

Lemma session_column_frame_witness :
  (passwordEncrypted <$>
     users (snd (SessionProfile.handle Sample.libs (SessionProfile.PatchEmail "new@x.com")
                   Sample.aliceSession Sample.world)) !! "u1")
  = (passwordEncrypted <$> users Sample.world !! "u1").
Proof.
  apply (proj1 (proj1 (proj2 (proj2 (session_column_frame Sample.libs
                                       (SessionProfile.PatchEmail "new@x.com")
                                       Sample.aliceSession Sample.world "u1")))
                  eq_refl)).
Defined.

(** X8: [POST /profile/password] changes nothing but the two password
    columns of the acting subject, and [PATCH /profile] never changes a
    password column, the primary email, the primary phone, the identities
    or the custom data. *)
Theorem api_column_frame libs auth w u :
  users w !! ProfileApi.auth_id auth = Some u ->
  (forall body,
     exists u', users (snd (ProfileApi.postProfilePassword libs auth body w))
                  !! ProfileApi.auth_id auth = Some u' /\
       user_id u' = user_id u /\ username u' = username u /\
       primaryEmail u' = primaryEmail u /\ primaryPhone u' = primaryPhone u /\
       name u' = name u /\ avatar u' = avatar u /\ customData u' = customData u /\
       profile u' = profile u /\ identities u' = identities u) /\
  (forall body,
     exists u', users (snd (ProfileApi.patchProfile libs auth body w))
                  !! ProfileApi.auth_id auth = Some u' /\
       user_id u' = user_id u /\
       passwordEncrypted u' = passwordEncrypted u /\
       passwordEncryptionMethod u' = passwordEncryptionMethod u /\
       primaryEmail u' = primaryEmail u /\ primaryPhone u' = primaryPhone u /\
       customData u' = customData u /\ identities u' = identities u).
Proof.
  intros Hu. split; intros body.
  - destruct (api_postProfilePassword_effect libs auth body w)
      as [(e & _ & -> & _)|(u0 & u' & _ & _ & Hu0 & -> & -> & _)].
    + exists u. repeat split; try reflexivity. exact Hu.
    + rewrite Hu in Hu0. injection Hu0 as <-.
      eexists. split; [apply lookup_insert_eq|]. repeat split; reflexivity.
  - destruct (api_patchProfile_effect libs auth body w)
      as [(e & _ & -> & _)|(u0 & u' & _ & Hu0 & -> & -> & _)].
    + exists u. repeat split; try reflexivity. exact Hu.
    + rewrite Hu in Hu0. injection Hu0 as <-.
      eexists. split; [apply lookup_insert_eq|]. repeat split; reflexivity.
Qed.

Lemma api_column_frame_witness :
  exists u',
    users (snd (ProfileApi.patchProfile Sample.libs Sample.aliceAuth Sample.profileBody
                  Sample.world)) !! "u1" = Some u' /\
    passwordEncrypted u' = Some "$argon2i$s1$pw1".
Proof.
  destruct (proj2 (api_column_frame Sample.libs Sample.aliceAuth Sample.world
                     Sample.alice eq_refl) Sample.profileBody)
    as (u' & Hu' & _ & Hpw & _).
  exists u'. split; [exact Hu' | exact Hpw].
Defined.

(** ** Setting a password on the session route *)

(** X9: on [PATCH /session/profile/password], a user with no stored hash
    ([null] or the empty string), or whose stored hash the new password
    does not verify against, gets 204 and the stored hash and method
    become what [encryptUserPassword] returned; [argon2Verify] is not
    consulted to reject a user without a hash. *)
Theorem patchPassword_sets_password libs sess password w userId u :
  checkSessionHealth libs sess (verificationTimeout libs) = inr (Some userId) ->
  userId <> "" ->
  users w !! userId = Some u ->
  truthy (passwordEncrypted u) = false \/
  argon2Verify libs password (default "" (passwordEncrypted u)) = false ->
  exists w',
    SessionProfile.patchPassword libs sess password w
      = (inr {| resp_status := 204; resp_body := None |}, w') /\
    (passwordEncrypted <$> users w' !! userId)
      = Some (Some (fst (encryptUserPassword libs password))) /\
    (passwordEncryptionMethod <$> users w' !! userId)
      = Some (Some (snd (encryptUserPassword libs password))).
Proof.
  intros Hh Hs Hu Hok. unfold SessionProfile.patchPassword.
  rewrite (bind_inr _ _ _ _ _ (healthyUser_ok _ _ _ _ Hh Hs)).
  rewrite (bind_inr _ _ _ _ _ (findUserById_found _ _ _ Hu)).
  assert (negb (truthy (passwordEncrypted u))
          || negb (argon2Verify libs password (default "" (passwordEncrypted u))) = true)
    as ->.
  { destruct Hok as [-> | ->]; [reflexivity | apply orb_true_r]. }
  rewrite bind_assertThat_true.
  destruct (encryptUserPassword libs password) as [pe pm].
  update_user userId u Hu.
  eexists. split; [reflexivity|]. simpl. rewrite lookup_insert_eq. split; reflexivity.
Qed.

Lemma patchPassword_sets_password_witness :
  exists w',
    SessionProfile.patchPassword Sample.libs Sample.bobSession "anything" Sample.world
      = (inr {| resp_status := 204; resp_body := None |}, w') /\
    (passwordEncrypted <$> users w' !! "u2") = Some (Some "$argon2i$s2$anything") /\
    (passwordEncryptionMethod <$> users w' !! "u2") = Some (Some "Argon2i").
Proof.
  apply (patchPassword_sets_password Sample.libs Sample.bobSession "anything"
           Sample.world "u2" Sample.bob);
    [reflexivity | discriminate | reflexivity | left; reflexivity].
Defined.

(** ** Deleting the email and the phone *)

(** X10: delete-email on a user whose [primaryEmail] is falsy ([null] or
    the empty string) fails with [user.email_not_exists]; on a user with an
    email it answers 204 and stores [null], after which the same request
    fails with [user.email_not_exists]. *)
Theorem deleteEmail_outcome libs sess w userId u :
  checkSessionHealth libs sess (verificationTimeout libs) = inr (Some userId) ->
  userId <> "" ->
  users w !! userId = Some u ->
  (truthy (primaryEmail u) = false ->
   SessionProfile.deleteEmail libs sess w
     = (inl user_email_not_exists, traced (OpFind userId) w)) /\
  (truthy (primaryEmail u) = true ->
   exists w',
     SessionProfile.deleteEmail libs sess w
       = (inr {| resp_status := 204; resp_body := None |}, w') /\
     (primaryEmail <$> users w' !! userId) = Some None /\
     fst (SessionProfile.deleteEmail libs sess w') = inl user_email_not_exists).
Proof.
  intros Hh Hs Hu. split; intros Ht; unfold SessionProfile.deleteEmail.
  - rewrite (bind_inr _ _ _ _ _ (healthyUser_ok _ _ _ _ Hh Hs)).
    rewrite (bind_inr _ _ _ _ _ (findUserById_found _ _ _ Hu)).
    rewrite Ht. reflexivity.
  - rewrite (bind_inr _ _ _ _ _ (healthyUser_ok _ _ _ _ Hh Hs)).
    rewrite (bind_inr _ _ _ _ _ (findUserById_found _ _ _ Hu)).
    rewrite Ht, bind_assertThat_true.
    update_user userId u Hu.
    eexists. split; [reflexivity|]. split; [simpl; rewrite lookup_insert_eq; reflexivity|].
    rewrite (bind_inr _ _ _ _ _ (healthyUser_ok _ _ _ _ Hh Hs)).
    erewrite bind_inr; [|apply findUserById_found; simpl; apply lookup_insert_eq].
    reflexivity.
Qed.

Lemma deleteEmail_outcome_witness :
  exists w',
    SessionProfile.deleteEmail Sample.libs Sample.aliceSession Sample.world
      = (inr {| resp_status := 204; resp_body := None |}, w') /\
    (primaryEmail <$> users w' !! "u1") = Some None /\
    fst (SessionProfile.deleteEmail Sample.libs Sample.aliceSession w')
      = inl user_email_not_exists.
Proof.
  apply (proj2 (deleteEmail_outcome Sample.libs Sample.aliceSession Sample.world
                  "u1" Sample.alice eq_refl ltac:(discriminate) eq_refl)).
  reflexivity.
Defined.

(** X11: the same for delete-phone and [primaryPhone]. *)
Theorem deletePhone_outcome libs sess w userId u :
  checkSessionHealth libs sess (verificationTimeout libs) = inr (Some userId) ->
  userId <> "" ->
  users w !! userId = Some u ->
  (truthy (primaryPhone u) = false ->
   SessionProfile.deletePhone libs sess w
     = (inl user_phone_not_exists, traced (OpFind userId) w)) /\
  (truthy (primaryPhone u) = true ->
   exists w',
     SessionProfile.deletePhone libs sess w
       = (inr {| resp_status := 204; resp_body := None |}, w') /\
     (primaryPhone <$> users w' !! userId) = Some None /\
     fst (SessionProfile.deletePhone libs sess w') = inl user_phone_not_exists).
Proof.
  intros Hh Hs Hu. split; intros Ht; unfold SessionProfile.deletePhone.
  - rewrite (bind_inr _ _ _ _ _ (healthyUser_ok _ _ _ _ Hh Hs)).
    rewrite (bind_inr _ _ _ _ _ (findUserById_found _ _ _ Hu)).
    rewrite Ht. reflexivity.
  - rewrite (bind_inr _ _ _ _ _ (healthyUser_ok _ _ _ _ Hh Hs)).
    rewrite (bind_inr _ _ _ _ _ (findUserById_found _ _ _ Hu)).
    rewrite Ht, bind_assertThat_true.
    update_user userId u Hu.
    eexists. split; [reflexivity|]. split; [simpl; rewrite lookup_insert_eq; reflexivity|].
    rewrite (bind_inr _ _ _ _ _ (healthyUser_ok _ _ _ _ Hh Hs)).
    erewrite bind_inr; [|apply findUserById_found; simpl; apply lookup_insert_eq].
    reflexivity.
Qed.

Lemma deletePhone_outcome_witness :
  exists w',
    SessionProfile.deletePhone Sample.libs Sample.carolSession Sample.world
      = (inr {| resp_status := 204; resp_body := None |}, w') /\
    (primaryPhone <$> users w' !! "u3") = Some None /\
    fst (SessionProfile.deletePhone Sample.libs Sample.carolSession w')
      = inl user_phone_not_exists.
Proof.
  apply (proj2 (deletePhone_outcome Sample.libs Sample.carolSession Sample.world
                  "u3" Sample.carol eq_refl ltac:(discriminate) eq_refl)).
  reflexivity.
Defined.

(** ** Linking and unlinking an identity *)

(** X12: linking the identity of a connector and then unlinking the
    connector's target both answer 204 and leave the user's identities as
    they were before the link with that target removed; when the target
    was not linked before, the identities are exactly as before. *)
Theorem link_then_unlink libs sess body w userId u target info :
  checkSessionHealth libs sess (verificationTimeout libs) = inr (Some userId) ->
  accountId sess = Some userId ->
  userId <> "" ->
  users w !! userId = Some u ->
  getLogtoConnectorById libs (SessionProfile.connectorId body) = inr target ->
  getUserInfoByAuthCode libs (SessionProfile.connectorId body)
    (SessionProfile.data body) = inr info ->
  exists w1 w2,
    SessionProfile.patchIdentities libs sess body w
      = (inr {| resp_status := 204; resp_body := None |}, w1) /\
    (identities <$> users w1 !! userId)
      = Some (<[target := {| identity_userId := social_id info; details := info |}]>
                (identities u)) /\
    SessionProfile.deleteIdentity sess target w1
      = (inr {| resp_status := 204; resp_body := None |}, w2) /\
    (identities <$> users w2 !! userId) = Some (delete target (identities u)) /\
    (identities u !! target = None ->
     (identities <$> users w2 !! userId) = Some (identities u)).
Proof.
  intros Hh Ha Hs Hu Hc Hi.
  assert (forall m : gmap string Identity,
            setJsonb (jsonbModeDefault libs)
              (Some (<[target := {| identity_userId := social_id info;
                                    details := info |}]> m)) m
            = <[target := {| identity_userId := social_id info; details := info |}]> m)
    as Hset.
  { intros m. simpl. destruct (jsonbModeDefault libs);
      [apply merge_inserted | reflexivity]. }
  cbn [setJsonb] in Hset.
  unfold SessionProfile.patchIdentities.
  rewrite (bind_inr _ _ _ _ _ (healthyUser_ok _ _ _ _ Hh Hs)).
  rewrite Hc, Hi. cbn [liftResult]. rewrite !bind_ret.
  rewrite (bind_inr _ _ _ _ _ (findUserById_found _ _ _ Hu)).
  update_user userId u Hu.
  do 2 eexists. split; [reflexivity|].
  split; [cbn [users stored traced]; rewrite lookup_insert_eq;
          cbn [fmap option_fmap option_map identities applyUserSet set_identities setJsonb];
          rewrite Hset; reflexivity|].
  unfold SessionProfile.deleteIdentity, SessionProfile.sessionUser. rewrite Ha.
  rewrite (bind_inr _ _ _ _ _ (assertTruthy_Some _ _ _ Hs)).
  erewrite bind_inr; [|apply findUserById_found; simpl; apply lookup_insert_eq].
  cbn [identities applyUserSet set_identities setJsonb]. rewrite Hset, lookup_insert_eq.
  rewrite bool_decide_eq_true_2 by eauto.
  rewrite bind_assertThat_true.
  rewrite (bind_inr _ _ _ _ _ (console_log_run _ _)).
  erewrite bind_inr; [|apply deleteUserIdentity_found; simpl; apply lookup_insert_eq].
  split; [reflexivity|].
  assert (delete target
            (<[target := {| identity_userId := social_id info; details := info |}]>
               (identities u)) = delete target (identities u)) as Hdel
    by apply delete_insert_eq.
  split.
  - cbn [users stored traced logged]. rewrite lookup_insert_eq.
    cbn [fmap option_fmap option_map identities removeIdentity applyUserSet
         set_identities setJsonb].
    rewrite Hset, Hdel. reflexivity.
  - intros Hnone. cbn [users stored traced logged]. rewrite lookup_insert_eq.
    cbn [fmap option_fmap option_map identities removeIdentity applyUserSet
         set_identities setJsonb].
    rewrite Hset, Hdel. rewrite delete_id by exact Hnone. reflexivity.
Qed.

Lemma link_then_unlink_witness :
  exists w1 w2,
    SessionProfile.patchIdentities Sample.libs Sample.aliceSession
      {| SessionProfile.connectorId := "github-connector";
         SessionProfile.data := "gh-42" |} Sample.world
      = (inr {| resp_status := 204; resp_body := None |}, w1) /\
    SessionProfile.deleteIdentity Sample.aliceSession "github" w1
      = (inr {| resp_status := 204; resp_body := None |}, w2) /\
    (identities <$> users w2 !! "u1") = Some (identities Sample.alice).
Proof.
  destruct (link_then_unlink Sample.libs Sample.aliceSession
              {| SessionProfile.connectorId := "github-connector";
                 SessionProfile.data := "gh-42" |} Sample.world "u1" Sample.alice
              "github" {| social_id := "gh-42"; social_raw := "gh-42" |}
              eq_refl eq_refl ltac:(discriminate) eq_refl eq_refl eq_refl)
    as (w1 & w2 & H1 & _ & H2 & _ & H3).
  exists w1, w2. split; [exact H1|]. split; [exact H2|].
  apply H3. vm_compute. reflexivity.
Defined.

(** ** The console *)

#[global] Instance sameConsole_preorder : PreOrder sameConsole.
Proof. split; [intros w; reflexivity | intros a b c H1 H2; unfold sameConsole in *; congruence]. Qed.

Lemma logStore_sameConsole op : frames sameConsole (logStore op).
Proof. intros w. reflexivity. Qed.

Lemma putUsers_sameConsole us : frames sameConsole (putUsers us).
Proof. intros w. reflexivity. Qed.

#[global] Hint Resolve logStore_sameConsole putUsers_sameConsole : frames.

Lemma findUserById_sameConsole userId : frames sameConsole (findUserById userId).
Proof. unfold findUserById. frames_tac. Qed.

Lemma updateUserById_sameConsole userId s mode :
  frames sameConsole (updateUserById userId s mode).
Proof. unfold updateUserById. frames_tac. Qed.

Lemma checkField_sameConsole f sel c ex : frames sameConsole (checkField f sel c ex).
Proof. unfold checkField. frames_tac. Qed.

#[global] Hint Resolve findUserById_sameConsole updateUserById_sameConsole
  checkField_sameConsole : frames.

Lemma checkIdentifierCollision_sameConsole c ex :
  frames sameConsole (checkIdentifierCollision c ex).
Proof. unfold checkIdentifierCollision. frames_tac. Qed.

#[global] Hint Resolve checkIdentifierCollision_sameConsole : frames.



(** ** When the profile API succeeds *)

(** X14: [PATCH /profile] succeeds exactly when the caller holds the
    profile scope, a submitted username is held by no other user, and the
    acting user is stored. *)
Theorem patchProfile_succeeds_iff libs auth body w :
  (exists resp w', ProfileApi.patchProfile libs auth body w = (inr resp, w')) <->
  UserScope_Profile ∈ ProfileApi.scopes auth /\
  (forall v, ProfileApi.body_username body = Some v ->
             ~ heldByOther username v (Some (ProfileApi.auth_id auth)) (users w)) /\
  is_Some (users w !! ProfileApi.auth_id auth).
Proof.
  split.
  - intros (resp & w' & H). unfold ProfileApi.patchProfile in H.
    apply bind_inr_inv in H as ([] & w0 & Ha & H).
    apply assertThat_inr in Ha as [Hscope ->].
    apply bool_decide_eq_true in Hscope.
    apply bind_inr_inv in H as ([] & w1 & Hc & H).
    apply bind_inr_inv in H as (u' & w2 & Hup & _).
    apply updateUserById_inr in Hup as (u & Hu & _).
    assert (users w1 = users w) as Hus.
    { assert (readOnly w w1) as (Hu1 & _); [|exact Hu1].
      eapply frames_run; [|exact Hc].
      destruct (ProfileApi.body_username body); frames_tac. }
    split; [exact Hscope|]. split; [|rewrite <- Hus; eauto].
    intros v Hv Hheld. rewrite Hv in Hc.
    rewrite checkIdentifierCollision_username in Hc.
    rewrite (checkField_held _ _ _ _ _ Hheld) in Hc. discriminate Hc.
  - intros (Hscope & Hfree & [u Hu]). unfold ProfileApi.patchProfile.
    rewrite bool_decide_eq_true_2 by exact Hscope. rewrite bind_assertThat_true.
    destruct (ProfileApi.body_username body) as [v|].
    + erewrite bind_inr;
        [|rewrite checkIdentifierCollision_username; apply checkField_free;
          apply Hfree; reflexivity].
      update_user (ProfileApi.auth_id auth) u Hu.
      rewrite (bind_inr _ _ _ _ _ (appendDataHookContext_run _ _ _)).
      erewrite bind_inr; [|apply getScopedProfile_found; simpl; apply lookup_insert_eq].
      eauto.
    + rewrite bind_ret.
      update_user (ProfileApi.auth_id auth) u Hu.
      rewrite (bind_inr _ _ _ _ _ (appendDataHookContext_run _ _ _)).
      erewrite bind_inr; [|apply getScopedProfile_found; simpl; apply lookup_insert_eq].
      eauto.
Qed.

Lemma patchProfile_succeeds_iff_witness :
  exists resp w',
    ProfileApi.patchProfile Sample.libs Sample.aliceAuth Sample.renameBody Sample.world
    = (inr resp, w').
Proof.
  apply (proj2 (patchProfile_succeeds_iff Sample.libs Sample.aliceAuth Sample.renameBody
                  Sample.world)).
  split; [|split].
  - vm_compute. reflexivity.
  - intros v Hv. discriminate Hv.
  - exists Sample.alice. reflexivity.
Defined.

(** X15: [POST /profile/password] succeeds exactly when the record id
    resolves to an unconsumed, unexpired record of the acting subject and
    the acting user is stored; the new password itself plays no part. *)
Theorem postProfilePassword_succeeds_iff libs auth body w :
  (exists resp w', ProfileApi.postProfilePassword libs auth body w = (inr resp, w')) <->
  resolvesVerified (ProfileApi.auth_id auth) (ProfileApi.verificationRecordId body) w /\
  is_Some (users w !! ProfileApi.auth_id auth).
Proof.
  split.
  - intros (resp & w' & H).
    destruct (postProfilePassword_inr _ _ _ _ _ _ H) as (r & u & Hr & Ho & Hv & Hu).
    split; [|eauto]. exists r. apply isVerified_true in Hv. tauto.
  - intros ((r & Hr & Ho & Hc & He) & [u Hu]).
    do 2 eexists.
    apply (postProfilePassword_run libs auth body w r u Hr Ho); [|exact Hu].
    apply isVerified_true. auto.
Qed.

Lemma postProfilePassword_succeeds_iff_witness :
  exists resp w',
    ProfileApi.postProfilePassword Sample.libs Sample.aliceAuth
      {| ProfileApi.password := "pw1"; ProfileApi.verificationRecordId := "r1" |}
      Sample.world = (inr resp, w').
Proof.
  apply (proj2 (postProfilePassword_succeeds_iff Sample.libs Sample.aliceAuth
                  {| ProfileApi.password := "pw1";
                     ProfileApi.verificationRecordId := "r1" |} Sample.world)).
  split.
  - exists Sample.record1. repeat split; reflexivity.
  - exists Sample.alice. reflexivity.
Defined.

(** ** The address under the address scope *)

Lemma profileToStore_with_address scs (p : gmap string string) :
  UserScope_Address ∈ scs -> ProfileApi.profileToStore scs p = p.
Proof.
  intros H. unfold ProfileApi.profileToStore.
  rewrite bool_decide_eq_true_2 by exact H.
  destruct (p !! "address") as [a|] eqn:Ha.
  - rewrite insert_delete_eq. apply insert_id. exact Ha.
  - apply delete_id. exact Ha.
Qed.

(** X16: with the address scope the submitted profile reaches the store
    whole: taking the address out and putting it back loses nothing, and
    after a successful [PATCH /profile] every submitted profile key, the
    address included, is stored with the submitted value (in either JSON
    mode of the store). *)
Theorem patchProfile_stores_address libs auth body w resp w' p :
  UserScope_Address ∈ ProfileApi.scopes auth ->
  ProfileApi.body_profile body = Some p ->
  ProfileApi.patchProfile libs auth body w = (inr resp, w') ->
  set_profile (ProfileApi.patchProfileSet (ProfileApi.scopes auth) body) = Some p /\
  exists u', users w' !! ProfileApi.auth_id auth = Some u' /\
             forall k v, p !! k = Some v -> profile u' !! k = Some v.
Proof.
  intros Hscope Hp H. split.
  - simpl. rewrite Hp. simpl. rewrite profileToStore_with_address by exact Hscope.
    reflexivity.
  - apply patchProfile_inr in H as (u & Hu & Hupd & _).
    eexists. rewrite Hupd. split; [apply lookup_insert_eq|].
    intros k v Hk. simpl. rewrite Hp. simpl.
    rewrite profileToStore_with_address by exact Hscope.
    destruct (jsonbModeDefault libs); [apply lookup_union_Some_l|]; exact Hk.
Qed.

Lemma patchProfile_stores_address_witness :
  exists u',
    users (snd (ProfileApi.patchProfile Sample.libs
                  {| ProfileApi.auth_id := "u1";
                     ProfileApi.scopes := {[ UserScope_Profile; UserScope_Address ]} |}
                  Sample.profileBody Sample.world)) !! "u1" = Some u' /\
    forall k v,
      ({[ "address" := "9 Elm Rd"; "nickname" := "al" ]} : gmap string string) !! k
        = Some v ->
      profile u' !! k = Some v.
Proof.
  refine (proj2 (patchProfile_stores_address Sample.libs
                   {| ProfileApi.auth_id := "u1";
                      ProfileApi.scopes := {[ UserScope_Profile; UserScope_Address ]} |}
                   Sample.profileBody Sample.world
                   {| resp_status := 200;
                      resp_body :=
                        Some (applyUserSet Merge
                                (ProfileApi.patchProfileSet
                                   {[ UserScope_Profile; UserScope_Address ]}
                                   Sample.profileBody) Sample.alice) |}
                   (snd (ProfileApi.patchProfile Sample.libs
                           {| ProfileApi.auth_id := "u1";
                              ProfileApi.scopes :=
                                {[ UserScope_Profile; UserScope_Address ]} |}
                           Sample.profileBody Sample.world))
                   {[ "address" := "9 Elm Rd"; "nickname" := "al" ]} _ eq_refl _)).
  - vm_compute. reflexivity.
  - vm_compute. reflexivity.
Defined.

(** ** Repeating an identifier change *)

Lemma patchUsername_inr libs sess v w resp w' :
  SessionProfile.patchUsername libs sess v w = (inr resp, w') ->
  exists userId u,
    checkSessionHealth libs sess (verificationTimeout libs) = inr (Some userId) /\
    userId <> "" /\
    ~ heldByOther username v (Some userId) (users w) /\
    users w !! userId = Some u /\
    username (applyUserSet Replace
                {| set_username := Some (Some v); set_primaryEmail := None;
                   set_primaryPhone := None; set_passwordEncrypted := None;
                   set_passwordEncryptionMethod := None;
                   set_name := None; set_avatar := None; set_customData := None;
                   set_profile := None; set_identities := None |} u) = Some v /\
    resp = {| resp_status := 200;
              resp_body :=
                Some (pickUserInfo libs
                        (applyUserSet Replace
                           {| set_username := Some (Some v); set_primaryEmail := None;
                              set_primaryPhone := None; set_passwordEncrypted := None;
                              set_passwordEncryptionMethod := None;
                              set_name := None; set_avatar := None;
                              set_customData := None;
                              set_profile := None; set_identities := None |} u)) |} /\
    users w' = <[userId := applyUserSet Replace
                   {| set_username := Some (Some v); set_primaryEmail := None;
                      set_primaryPhone := None; set_passwordEncrypted := None;
                      set_passwordEncryptionMethod := None;
                      set_name := None; set_avatar := None; set_customData := None;
                      set_profile := None; set_identities := None |} u]> (users w).
Proof.
  unfold SessionProfile.patchUsername. intros H.
  apply bind_inr_inv in H as (userId & w1 & Hh & H).
  apply healthyUser_inr in Hh as (Hh & Hs & ->).
  apply bind_inr_inv in H as ([] & w2 & Hc & H).
  unfold checkSignUpIdentifierCollision in Hc.
  rewrite checkIdentifierCollision_username in Hc.
  destruct (checkField_cases "username" username v (Some userId) w)
    as [(Hheld & Hc')|(Hfree & Hc')]; rewrite Hc' in Hc; [discriminate Hc|].
  injection Hc as <-.
  apply bind_inr_inv in H as (u' & w3 & Hup & H).
  apply updateUserById_inr in Hup as (u & Hu & -> & ->).
  injection H as <- <-.
  exists userId, u. repeat split; try assumption; reflexivity.
Qed.

(** X17: the username route is idempotent: after a username change that
    succeeded, the same request succeeds again with the same answer and
    leaves the stored users as they are. *)
Theorem patchUsername_idempotent libs sess v w resp w1 :
  SessionProfile.patchUsername libs sess v w = (inr resp, w1) ->
  exists w2,
    SessionProfile.patchUsername libs sess v w1 = (inr resp, w2) /\
    users w2 = users w1.
Proof.
  intros H.
  apply patchUsername_inr in H as (userId & u & Hh & Hs & Hfree & Hu & Hname & -> & Hus).
  unfold SessionProfile.patchUsername.
  rewrite (bind_inr _ _ _ _ _ (healthyUser_ok _ _ _ _ Hh Hs)).
  erewrite bind_inr;
    [|unfold checkSignUpIdentifierCollision; rewrite checkIdentifierCollision_username;
      apply checkField_free].
  - erewrite bind_inr;
      [|apply updateUserById_found; simpl; rewrite Hus; apply lookup_insert_eq].
    eexists. split; [reflexivity|]. simpl. rewrite Hus. apply insert_insert_eq.
  - rewrite Hus. intros (k & uk & Hk & Hv & Hne).
    apply lookup_insert_Some in Hk as [[<- _]|[Hneq Hk]]; [congruence|].
    apply Hfree. exists k, uk. auto.
Qed.

Lemma patchUsername_idempotent_witness :
  exists w2,
    SessionProfile.patchUsername Sample.libs Sample.aliceSession "alicia"
      (snd (SessionProfile.patchUsername Sample.libs Sample.aliceSession "alicia"
              Sample.world))
    = (inr Sample.aliciaResponse, w2) /\
    users w2
    = users (snd (SessionProfile.patchUsername Sample.libs Sample.aliceSession "alicia"
                    Sample.world)).
Proof.
  apply (patchUsername_idempotent Sample.libs Sample.aliceSession "alicia"
           Sample.world Sample.aliciaResponse
           (snd (SessionProfile.patchUsername Sample.libs Sample.aliceSession "alicia"
                   Sample.world))).
  vm_compute. reflexivity.
Defined.

Lemma patchEmail_inr libs sess v w resp w' :
  SessionProfile.patchEmail libs sess v w = (inr resp, w') ->
  exists userId u',
    checkSessionHealth libs sess (verificationTimeout libs) = inr (Some userId) /\
    userId <> "" /\
    users w' !! userId = Some u' /\ primaryEmail u' = Some v.
Proof.
  unfold SessionProfile.patchEmail. intros H.
  apply bind_inr_inv in H as (userId & w1 & Hh & H).
  apply healthyUser_inr in Hh as (Hh & Hs & ->).
  apply bind_inr_inv in H as ([] & w2 & Hc & H).
  apply bind_inr_inv in H as (u' & w3 & Hup & H).
  apply updateUserById_inr in Hup as (u & Hu & -> & ->).
  injection H as _ <-.
  exists userId. eexists. split; [exact Hh|]. split; [exact Hs|].
  split; [simpl; apply lookup_insert_eq | reflexivity].
Qed.

Lemma patchPhone_inr libs sess v w resp w' :
  SessionProfile.patchPhone libs sess v w = (inr resp, w') ->
  exists userId u',
    checkSessionHealth libs sess (verificationTimeout libs) = inr (Some userId) /\
    userId <> "" /\
    users w' !! userId = Some u' /\ primaryPhone u' = Some v.
Proof.
  unfold SessionProfile.patchPhone. intros H.
  apply bind_inr_inv in H as (userId & w1 & Hh & H).
  apply healthyUser_inr in Hh as (Hh & Hs & ->).
  apply bind_inr_inv in H as ([] & w2 & Hc & H).
  apply bind_inr_inv in H as (u' & w3 & Hup & H).
  apply updateUserById_inr in Hup as (u & Hu & -> & ->).
  injection H as _ <-.
  exists userId. eexists. split; [exact Hh|]. split; [exact Hs|].
  split; [simpl; apply lookup_insert_eq | reflexivity].
Qed.

(** X18: the email and phone routes are not idempotent: after a change
    that succeeded the new value is stored, and the same request sent
    again is rejected with [IdentifierExists], the stored users staying as
    they are. *)
Theorem patchEmail_patchPhone_not_repeatable libs sess v w resp w1 :
  (SessionProfile.patchEmail libs sess v w = (inr resp, w1) ->
   fst (SessionProfile.patchEmail libs sess v w1) = inl IdentifierExists /\
   users (snd (SessionProfile.patchEmail libs sess v w1)) = users w1) /\
  (SessionProfile.patchPhone libs sess v w = (inr resp, w1) ->
   fst (SessionProfile.patchPhone libs sess v w1) = inl IdentifierExists /\
   users (snd (SessionProfile.patchPhone libs sess v w1)) = users w1).
Proof.
  split; intros H.
  - apply patchEmail_inr in H as (userId & u' & Hh & Hs & Hu & He).
    rewrite (patchEmail_own_email libs sess w1 userId u' v Hh Hs Hu He).
    split; reflexivity.
  - apply patchPhone_inr in H as (userId & u' & Hh & Hs & Hu & He).
    unfold SessionProfile.patchPhone.
    rewrite (bind_inr _ _ _ _ _ (healthyUser_ok _ _ _ _ Hh Hs)).
    erewrite bind_inl;
      [|unfold checkSignUpIdentifierCollision;
        rewrite checkIdentifierCollision_primaryPhone; apply checkField_held;
        exists userId, u'; split; [exact Hu|]; split; [exact He | discriminate]].
    split; reflexivity.
Qed.

Lemma patchEmail_patchPhone_not_repeatable_witness :
  fst (SessionProfile.patchEmail Sample.libs Sample.bobSession "b@x.com"
         (snd (SessionProfile.patchEmail Sample.libs Sample.bobSession "b@x.com"
                 Sample.world)))
  = inl IdentifierExists.
Proof.
  apply (proj1 (patchEmail_patchPhone_not_repeatable Sample.libs Sample.bobSession
                  "b@x.com" Sample.world
                  {| resp_status := 204; resp_body := None |}
                  (snd (SessionProfile.patchEmail Sample.libs Sample.bobSession "b@x.com"
                          Sample.world)))).
  vm_compute. reflexivity.
Defined.

(** ** The two reads *)

(** X19: [GET /session/profile] and [GET /profile] at most read the user
    store: users, verification records, data-hook context and console are
    as before and the trace gains no write, whatever they answer. *)
Theorem gets_read_only libs sess auth w :
  readOnly w (snd (SessionProfile.getProfile libs sess w)) /\
  readOnly w (snd (ProfileApi.getProfile auth w)).
Proof.
  split.
  - assert (frames readOnly (SessionProfile.getProfile libs sess)) as Hf.
    { unfold SessionProfile.getProfile, SessionProfile.sessionUser. frames_tac. }
    apply Hf.
  - assert (frames readOnly (ProfileApi.getProfile auth)) as Hf.
    { unfold ProfileApi.getProfile. frames_tac. }
    apply Hf.
Qed.

(** ** The tenant domain settings page *)

(** X20: the page renders nothing exactly while there is neither data nor
    an error.  Otherwise it is the two cards, and its custom-domain field
    holds the first fetched domain (any further ones are not shown), with
    the activation steps exactly when that domain is not active, or else
    the add-domain form: for an empty list, and also when the fetch failed
    and there is no data. *)
Theorem domain_settings_page swr :
  (TenantDomainSettings.TenantDomainSettings swr = None <->
   TenantDomainSettings.data swr = None /\ TenantDomainSettings.error swr = None) /\
  (forall d ds,
     TenantDomainSettings.data swr = Some (d :: ds) ->
     TenantDomainSettings.TenantDomainSettings swr
     = Some (TenantDomainSettings.page
               (TenantDomainSettings.Div
                  (TenantDomainSettings.CustomDomainHeader d
                     TenantDomainSettings.Revalidate
                   :: if decide (TenantDomainSettings.domain_status d
                                 = TenantDomainSettings.DomainStatus_Active)
                      then []
                      else [TenantDomainSettings.ActivationProcess d])))) /\
  (TenantDomainSettings.data swr = Some []
   \/ (TenantDomainSettings.data swr = None
       /\ TenantDomainSettings.error swr <> None) ->
   TenantDomainSettings.TenantDomainSettings swr
   = Some (TenantDomainSettings.page
             (TenantDomainSettings.AddDomainForm
                (fun domain => TenantDomainSettings.SetData [domain])))).
Proof.
  destruct swr as [[ds|] [e|]]; unfold TenantDomainSettings.TenantDomainSettings; simpl.
  all: split; [split; [intros H | intros [H1 H2]]; try discriminate; auto|].
  all: split.
  all: try (intros d ds' [= ->]; simpl;
            unfold TenantDomainSettings.CustomDomain, TenantDomainSettings.page,
              TenantDomainSettings.whenever;
            destruct (String.eqb_spec (TenantDomainSettings.domain_status d)
                        TenantDomainSettings.DomainStatus_Active) as [Heq|Hne];
            destruct (decide (TenantDomainSettings.domain_status d
                              = TenantDomainSettings.DomainStatus_Active));
            try contradiction; reflexivity).
  all: try (intros d ds' H; discriminate H).
  all: try (intros [[= ->]|[H1 H2]]; [reflexivity | discriminate H1]).
  all: try (intros [H|[_ H2]]; [discriminate H | reflexivity]).
  intros [H|[_ H2]]; [discriminate H | contradiction].
Qed.

Lemma domain_settings_page_witness :
  TenantDomainSettings.TenantDomainSettings
    {| TenantDomainSettings.data := None;
       TenantDomainSettings.error := Some entity_not_found |}
  = Some (TenantDomainSettings.page
            (TenantDomainSettings.AddDomainForm
               (fun domain => TenantDomainSettings.SetData [domain]))).
Proof.
  apply (proj2 (proj2 (domain_settings_page
                         {| TenantDomainSettings.data := None;
                            TenantDomainSettings.error := Some entity_not_found |}))).
  right. split; [reflexivity | discriminate].
Defined.

(** ** Routes that do not ask for a healthy session *)

(** X21: [GET /session/profile], [PATCH /session/profile] and
    [DELETE .../identities/:target] never call [checkSessionHealth]: two
    deployments that differ only in what the health check, the connectors
    or the password functions answer give the same answer and the same
    world; in particular unlinking an identity goes through on a session
    that the health check would reject. *)
Theorem unchecked_routes_ignore_session_health libs1 libs2 op sess w :
  checksHealth op = false ->
  pickUserInfo libs1 = pickUserInfo libs2 ->
  jsonbModeDefault libs1 = jsonbModeDefault libs2 ->
  SessionProfile.handle libs1 op sess w = SessionProfile.handle libs2 op sess w.
Proof.
  intros Hop Hpick Hmode.
  destruct op; try discriminate Hop; simpl.
  - unfold SessionProfile.getProfile. rewrite Hpick. reflexivity.
  - unfold SessionProfile.patchProfile. rewrite Hmode. reflexivity.
  - reflexivity.
Qed.

Lemma unchecked_routes_ignore_session_health_witness :
  SessionProfile.handle Sample.libs (SessionProfile.DeleteIdentity "google")
    {| accountId := Some "u1"; loginTs := None |} Sample.world
  = SessionProfile.handle
      {| checkSessionHealth := fun _ _ => inl auth_unauthorized;
         verificationTimeout := 0;
         argon2Verify := fun _ _ => true;
         encryptUserPassword := fun p => (p, ""%string);
         getLogtoConnectorById := fun _ => inl entity_not_found;
         getUserInfoByAuthCode := fun _ _ => inl entity_not_found;
         pickUserInfo := pickUserInfo Sample.libs;
         jsonbModeDefault := Merge |}
      (SessionProfile.DeleteIdentity "google")
      {| accountId := Some "u1"; loginTs := None |} Sample.world.
Proof.
  apply unchecked_routes_ignore_session_health; reflexivity.
Defined.

(** ** Reading back what was written *)

(** X22: a successful [PATCH /profile] answers with exactly what a
    [GET /profile] by the same caller answers right after it. *)
Theorem patchProfile_then_getProfile libs auth body w resp w' :
  ProfileApi.patchProfile libs auth body w = (inr resp, w') ->
  fst (ProfileApi.getProfile auth w') = inr resp.
Proof.
  intros H. apply patchProfile_inr in H as (u & Hu & Hus & _ & ->).
  unfold ProfileApi.getProfile.
  erewrite bind_inr;
    [|apply getScopedProfile_found; rewrite Hus; apply lookup_insert_eq].
  reflexivity.
Qed.

Lemma patchProfile_then_getProfile_witness :
  fst (ProfileApi.getProfile Sample.aliceAuth
         (snd (ProfileApi.patchProfile Sample.libs Sample.aliceAuth Sample.profileBody
                 Sample.world)))
  = fst (ProfileApi.patchProfile Sample.libs Sample.aliceAuth Sample.profileBody
           Sample.world).
Proof.
  rewrite (patchProfile_then_getProfile Sample.libs Sample.aliceAuth Sample.profileBody
             Sample.world
             {| resp_status := 200;
                resp_body :=
                  Some (project (ProfileApi.scopes Sample.aliceAuth)
                          (applyUserSet Merge
                             (ProfileApi.patchProfileSet
                                (ProfileApi.scopes Sample.aliceAuth) Sample.profileBody)
                             Sample.alice)) |}
             (snd (ProfileApi.patchProfile Sample.libs Sample.aliceAuth
                     Sample.profileBody Sample.world)));
    vm_compute; reflexivity.
Defined.


(** * The claims on linking, on sessions without account and on the address *)

(** ** Linking an identity merges the fetched identity *)

(** C7: for a subject with a healthy session whose user is stored, when
    the connector is known and the social exchange answers with [info],
    identity linking answers 204, the user's stored [identities] becomes
    the previous map with the entry under the connector's target set to
    [{ userId: info.id, details: info }] (every other target reads as
    before) and no other user is touched; the handler spreads the stored
    map into the object it writes, so this holds in either JSON mode.
    Conversely a linking that succeeded did exactly that, and when the
    social exchange errors the request fails and the world is
    untouched. *)
Theorem patchIdentities_last_write_wins libs sess body w :
  (forall userId u target info,
     checkSessionHealth libs sess (verificationTimeout libs) = inr (Some userId) ->
     userId <> "" ->
     users w !! userId = Some u ->
     getLogtoConnectorById libs (SessionProfile.connectorId body) = inr target ->
     getUserInfoByAuthCode libs (SessionProfile.connectorId body)
       (SessionProfile.data body) = inr info ->
     exists w',
       SessionProfile.patchIdentities libs sess body w
         = (inr {| resp_status := 204; resp_body := None |}, w') /\
       (identities <$> users w' !! userId)
         = Some (<[target := {| identity_userId := social_id info; details := info |}]>
                   (identities u)) /\
       (forall k, k <> userId -> users w' !! k = users w !! k)) /\
  (forall resp w',
     SessionProfile.patchIdentities libs sess body w = (inr resp, w') ->
     exists userId u target info u',
       checkSessionHealth libs sess (verificationTimeout libs) = inr (Some userId) /\
       users w !! userId = Some u /\
       getLogtoConnectorById libs (SessionProfile.connectorId body) = inr target /\
       getUserInfoByAuthCode libs (SessionProfile.connectorId body)
         (SessionProfile.data body) = inr info /\
       users w' !! userId = Some u' /\
       identities u' =
         <[target := {| identity_userId := social_id info; details := info |}]>
           (identities u) /\
       forall t, t <> target -> identities u' !! t = identities u !! t) /\
  (forall e,
     getUserInfoByAuthCode libs (SessionProfile.connectorId body)
       (SessionProfile.data body) = inl e ->
     exists e', SessionProfile.patchIdentities libs sess body w = (inl e', w)).
Proof.
  split; [|split].
  - intros userId u target info Hh Hs Hu Hc Hi.
    unfold SessionProfile.patchIdentities.
    rewrite (bind_inr _ _ _ _ _ (healthyUser_ok _ _ _ _ Hh Hs)).
    rewrite Hc, Hi. cbn [liftResult]. rewrite !bind_ret.
    rewrite (bind_inr _ _ _ _ _ (findUserById_found _ _ _ Hu)).
    update_user userId u Hu.
    eexists. split; [reflexivity|]. split.
    + cbn [users stored traced]. rewrite lookup_insert_eq.
      cbn [fmap option_fmap option_map identities applyUserSet set_identities setJsonb].
      destruct (jsonbModeDefault libs); [rewrite merge_inserted|]; reflexivity.
    + intros k Hk. cbn [users stored traced]. apply lookup_insert_ne. congruence.
  - intros resp w' H. unfold SessionProfile.patchIdentities in H.
    apply bind_inr_inv in H as (userId & w1 & Hh & H).
    apply healthyUser_inr in Hh as (Hh & Hs & ->).
    apply bind_inr_inv in H as (target & w2 & Hc & H).
    destruct (getLogtoConnectorById libs (SessionProfile.connectorId body))
      as [e|target0] eqn:Hconn; [discriminate Hc|].
    injection Hc as -> <-.
    apply bind_inr_inv in H as (info & w3 & Hi & H).
    destruct (getUserInfoByAuthCode libs (SessionProfile.connectorId body)
                (SessionProfile.data body)) as [e|info0] eqn:Hinfo; [discriminate Hi|].
    injection Hi as -> <-.
    apply bind_inr_inv in H as (u & w4 & Hf & H).
    apply findUserById_inr in Hf as [Hu ->].
    apply bind_inr_inv in H as (u' & w5 & Hup & H).
    apply updateUserById_inr in Hup as (u0 & Hu0 & -> & ->).
    injection H as _ <-. simpl in Hu0. rewrite Hu in Hu0. injection Hu0 as <-.
    exists userId, u, target, info. eexists.
    split; [exact Hh|]. split; [exact Hu|]. split; [reflexivity|].
    split; [reflexivity|]. split; [simpl; apply lookup_insert_eq|]. split.
    + simpl. destruct (jsonbModeDefault libs); [apply merge_inserted | reflexivity].
    + intros t Ht. simpl.
      destruct (jsonbModeDefault libs); [rewrite merge_inserted|];
        apply lookup_insert_ne; congruence.
  - intros e He. unfold SessionProfile.patchIdentities.
    bind_case Hc.
    + apply healthyUser_world in Hc as ->. eauto.
    + apply healthyUser_world in Hc as ->.
      unfold bind, liftResult. rewrite He.
      destruct (getLogtoConnectorById libs (SessionProfile.connectorId body));
        simpl; eauto.
Qed.

Lemma patchIdentities_last_write_wins_witness :
  (exists w',
     SessionProfile.patchIdentities Sample.libs Sample.aliceSession
       {| SessionProfile.connectorId := "github-connector";
          SessionProfile.data := "gh-42" |} Sample.world
     = (inr {| resp_status := 204; resp_body := None |}, w') /\
     (identities <$> users w' !! "u1")
     = Some (<["github" := {| identity_userId := "gh-42";
                              details := {| social_id := "gh-42";
                                            social_raw := "gh-42" |} |}]>
               (identities Sample.alice)) /\
     (forall k, k <> "u1" -> users w' !! k = users Sample.world !! k)) /\
  (exists e',
     SessionProfile.patchIdentities Sample.libs Sample.aliceSession
       {| SessionProfile.connectorId := "github-connector";
          SessionProfile.data := "" |} Sample.world = (inl e', Sample.world)).
Proof.
  split.
  - apply (proj1 (patchIdentities_last_write_wins Sample.libs Sample.aliceSession
                    {| SessionProfile.connectorId := "github-connector";
                       SessionProfile.data := "gh-42" |} Sample.world)
             "u1" Sample.alice "github"
             {| social_id := "gh-42"; social_raw := "gh-42" |});
      [reflexivity | discriminate | reflexivity | reflexivity | reflexivity].
  - apply (proj2 (proj2 (patchIdentities_last_write_wins Sample.libs Sample.aliceSession
                           {| SessionProfile.connectorId := "github-connector";
                              SessionProfile.data := "" |} Sample.world))
             {| code := "session.invalid_connector_request"; status := 400 |}).
    reflexivity.
Defined.

(** ** A session without account id *)




(** ** The address without the address scope *)




